(** * OperaWebDriverInstaller (src/opera.js)

    A shallow embedding of the Opera plugin of the WebDriver installer and
    the properties its specification states about it.

    The plugin is glue around five asynchronous helpers of [InstallerUtils]
    (utils.js) and three Node built-ins ([os.platform], [os.userInfo],
    [path.join]).  The helpers are the plugin's only way to touch the
    machine, so a method is embedded as a tree of helper calls
    ([prog]): every [await] is a node, the continuation receives what the
    helper resolved to, and a rejected helper or a [throw] ends the method.
    Running a tree against a [Host] yields the ordered list of helper calls
    that were issued together with the method's outcome. *)

From Stdlib Require Import String Ascii List Bool PeanoNat Lia.
Import ListNotations.

Local Open Scope list_scope.
Local Open Scope string_scope.

Set Implicit Arguments.

(* ================================================================== *)
(** ** JavaScript strings *)
(* ================================================================== *)

(** A [string] is read as a sequence of code units below 256, one per
    [ascii]. *)
Module JsString.

(** ECMAScript WhiteSpace and LineTerminator code points below 256:
    TAB, LF, VT, FF, CR, SPACE and NO-BREAK SPACE. *)
Definition isWhiteSpace (c : ascii) : bool :=
  let n := nat_of_ascii c in
  (((9 <=? n) && (n <=? 13)) || (n =? 32) || (n =? 160))%nat.

(** [String.prototype.trimStart]. *)
Fixpoint trimStart (s : string) : string :=
  match s with
  | EmptyString => EmptyString
  | String c rest => if isWhiteSpace c then trimStart rest else s
  end.

(** [String.prototype.trimEnd]. *)
Fixpoint trimEnd (s : string) : string :=
  match s with
  | EmptyString => EmptyString
  | String c rest =>
      match trimEnd rest with
      | EmptyString => if isWhiteSpace c then EmptyString else String c EmptyString
      | kept => String c kept
      end
  end.

(** [String.prototype.trim]. *)
Definition trim (s : string) : string := trimEnd (trimStart s).

(** [String.prototype.split] with a separator of one code unit: the
    pieces between the occurrences of [sep], empty pieces included; the
    array is never empty. *)
Fixpoint split (sep : ascii) (s : string) : list string :=
  match s with
  | EmptyString => [EmptyString]
  | String c rest =>
      if Ascii.eqb c sep then EmptyString :: split sep rest
      else match split sep rest with
           | piece :: pieces => String c piece :: pieces
           | [] => [String c EmptyString]
           end
  end.

(** The regular expressions of the plugin: a pattern anchored at the
    start of the input ([^]) followed by atoms, each a literal code unit
    or an optional literal code unit ([c?], greedy). *)
Inductive atom : Type :=
| Lit (c : ascii)
| Opt (c : ascii).

Definition anchored := list atom.

(** What is left of [s] once the atoms have matched a prefix of it, the
    optional atoms taking their character when that lets the rest match;
    [None] when the pattern does not match at the start of [s]. *)
Fixpoint matchPrefix (re : anchored) (s : string) : option string :=
  match re with
  | [] => Some s
  | Lit c :: re' =>
      match s with
      | String d rest => if Ascii.eqb d c then matchPrefix re' rest else None
      | EmptyString => None
      end
  | Opt c :: re' =>
      match s with
      | String d rest =>
          if Ascii.eqb d c then
            match matchPrefix re' rest with
            | Some remainder => Some remainder
            | None => matchPrefix re' s
            end
          else matchPrefix re' s
      | EmptyString => matchPrefix re' s
      end
  end.

(** [s.replace(re, replacement)] for an anchored pattern without the
    global flag and a replacement that holds no [$] pattern. *)
Definition replace (re : anchored) (replacement : string) (s : string) : string :=
  match matchPrefix re s with
  | Some remainder => replacement ++ remainder
  | None => s
  end.

End JsString.

(* ================================================================== *)
(** ** Values, errors and helper calls *)
(* ================================================================== *)

(** What a version probe resolves to and what the version getters return:
    a string, [null] or [undefined]. *)
Inductive value : Type :=
| null
| undefined
| str (s : string).

(** JavaScript truthiness, as tested by [!v], [v ? a : b] and [a || b]. *)
Definition truthy (v : value) : bool :=
  match v with
  | str s => negb (String.eqb s EmptyString)
  | null | undefined => false
  end.

(** [null] and [undefined] are the absent results. *)
Definition absent (v : value) : Prop := v = null \/ v = undefined.

(** [array[i]]: [undefined] out of range. *)
Definition index (array : list string) (i : nat) : value :=
  match nth_error array i with
  | Some s => str s
  | None => undefined
  end.

(** A thrown [Error] object. *)
Record error : Type := Error { message : string }.

(** The calls into [InstallerUtils], indexed by what their promise
    resolves to. *)
Inductive call : Type -> Type :=
| getMacAppVersion (appName : string) : call value
| getCommandOutputOrNullIfMissing (args : list string) : call value
| getWindowsExeVersion (exePath : string) : call value
| fetchLatestGitHubTag (repo : string) : call string
| installBinary (archiveUrl nameInArchive outputName outputDirectory : string)
    (isZip : bool) : call string.

(** A call as it appears in a trace. *)
Inductive event : Type :=
| Invoke {R : Type} (c : call R).

(** Modelled from the spec: which helpers of utils.js, absent from the
    sources at hand, go to the network.  [fetchLatestGitHubTag] queries
    the release API and [installBinary] downloads the archive; the three
    probes run a command or read metadata. *)
Definition isNetworkRequest (e : event) : bool :=
  match e with
  | Invoke (fetchLatestGitHubTag _) => true
  | Invoke (installBinary _ _ _ _ _) => true
  | Invoke _ => false
  end.

(** Modelled from the spec: which helpers of utils.js write to the
    filesystem.  [installBinary] alone does: it writes the extracted
    binary under the output directory. *)
Definition isFilesystemWrite (e : event) : bool :=
  match e with
  | Invoke (installBinary _ _ _ _ _) => true
  | Invoke _ => false
  end.

(** How a promise settles. *)
Inductive outcome (A : Type) : Type :=
| Resolved (a : A)
| Rejected (e : error).

Arguments Rejected {A} e.

(** The machine the plugin runs on: the Node built-ins it reads and the
    way each helper call settles there.  [os.userInfo()] is taken to have
    returned.  No method of the plugin issues the same call twice, so the
    answers of one run are a function of the call alone, and a statement
    that holds for every host holds for every sequence of answers. *)
Record Host : Type := {
  os_platform : string;                       (* os.platform() *)
  os_username : string;                       (* os.userInfo().username *)
  path_join : string -> string -> string;     (* path.join(a, b) *)
  settle : forall R : Type, call R -> outcome R
}.

(* ================================================================== *)
(** ** Asynchronous methods *)
(* ================================================================== *)

(** The body of an [async] method. *)
Inductive prog (A : Type) : Type :=
| Return (a : A)
| Throw (e : error)
| Await {R : Type} (c : call R) (k : R -> prog A).

Arguments Return {A} a.
Arguments Throw {A} e.

Notation "x <- 'await' c ;; k" := (Await c (fun x => k))
  (at level 61, c at next level, right associativity).

(** Runs a method body on a host: the calls it issued, in order, and how
    its promise settled.  A rejected call rejects the method with the same
    error (no method of the plugin has a [try]). *)
Fixpoint run {A : Type} (h : Host) (p : prog A) : list event * outcome A :=
  match p with
  | Return a => ([], Resolved a)
  | Throw e => ([], Rejected e)
  | Await c k =>
      match settle h c with
      | Resolved r => let (t, o) := run h (k r) in (Invoke c :: t, o)
      | Rejected e => ([Invoke c], Rejected e)
      end
  end.

Definition trace {A : Type} (h : Host) (p : prog A) : list event := fst (run h p).
Definition result {A : Type} (h : Host) (p : prog A) : outcome A := snd (run h p).

(* ================================================================== *)
(** ** The plugin *)
(* ================================================================== *)

Module OperaWebDriverInstaller.

Definition getBrowserName : string := "Opera".

Definition getDriverName : string := "operadriver".

(** The expression [v ? v.trim().split(' ')[i] : null], which closes
    both version getters that parse a command's output. *)
Definition trimmedPieceOrNull (v : value) (i : nat) : value :=
  if truthy v then
    match v with
    | str s => index (JsString.split " " (JsString.trim s)) i
    | null | undefined => null
    end
  else null.

Section Methods.

Variable h : Host.

(** [new Error(`Unsupported platform: ${os.platform()}`)]. *)
Definition unsupportedPlatform : error :=
  Error ("Unsupported platform: " ++ os_platform h).

(** The [for ... of possiblePaths] loop of the Windows branch: each
    path is probed in turn and the first truthy version is returned;
    [afterLoop] is the code that follows the loop. *)
Fixpoint forPossiblePaths (possiblePaths : list string)
    (afterLoop : prog value) : prog value :=
  match possiblePaths with
  | [] => afterLoop
  | exePath :: others =>
      version <- await getWindowsExeVersion exePath;;
      if truthy version then Return version
      else forPossiblePaths others afterLoop
  end.

Definition possiblePaths : list string :=
  [ "C:\Program Files\Opera\opera.exe";
    "C:\Program Files (x86)\Opera\opera.exe";
    "C:\Users\" ++ os_username h ++ "\AppData\Local\Programs\Opera\opera.exe" ].

(** Lines 26-70. *)
Definition getInstalledBrowserVersion : prog value :=
  if os_platform h =? "darwin" then
    first <- await getMacAppVersion "Opera";;
    if truthy first then Return first
    else
      second <- await getMacAppVersion "Opera Stable";;
      Return second
  else if os_platform h =? "linux" then
    version <- await getCommandOutputOrNullIfMissing ["/snap/bin/opera"; "--version"];;
    if negb (truthy version) then
      version <- await getCommandOutputOrNullIfMissing ["opera"; "--version"];;
      Return (trimmedPieceOrNull version 0)
    else Return (trimmedPieceOrNull version 0)
  else if os_platform h =? "win32" then
    forPossiblePaths possiblePaths
      (version <- await getWindowsExeVersion "opera.exe";;
       Return version)
  else Throw unsupportedPlatform.

(** Lines 75-86. *)
Definition getInstalledDriverVersion (outputDirectory : string) : prog value :=
  let outputPath := path_join h outputDirectory getDriverName in
  let outputPath :=
    if os_platform h =? "win32" then outputPath ++ ".exe" else outputPath in
  output <- await getCommandOutputOrNullIfMissing [outputPath; "--version"];;
  Return (trimmedPieceOrNull output 1).

(** The pattern [/^v\.?/]. *)
Definition tagPrefix : JsString.anchored := [JsString.Lit "v"; JsString.Opt "."].

(** Lines 93-100. *)
Definition getBestDriverVersion (_browserVersion : value) : prog string :=
  tag <- await fetchLatestGitHubTag "operasoftware/operachromiumdriver";;
  Return (JsString.replace tagPrefix EmptyString tag).

(** Lines 106-118 of [install]: the values of [platform] and
    [binaryName] once the chain of tests on [os.platform()] is through,
    [None] when the chain ends in its [throw]. *)
Definition platformAndBinaryName : option (string * string) :=
  let binaryName := "operadriver" in
  if os_platform h =? "linux" then Some ("linux64", binaryName)
  else if os_platform h =? "darwin" then Some ("mac64", binaryName)
  else if os_platform h =? "win32" then Some ("win64", binaryName ++ ".exe")
  else None.

(** Lines 105-140. *)
Definition install (driverVersion outputDirectory : string) : prog string :=
  match platformAndBinaryName with
  | None => Throw unsupportedPlatform
  | Some (platform, binaryName) =>
      let archiveUrl :=
        "https://github.com/operasoftware/operachromiumdriver/releases/download/"
        ++ "v." ++ driverVersion ++ "/operadriver_" ++ platform ++ ".zip" in
      let nameInArchive := "operadriver_" ++ platform ++ "/" ++ binaryName in
      let outputName := getDriverName in
      let outputName :=
        if os_platform h =? "win32" then outputName ++ ".exe" else outputName in
      artifact <- await installBinary archiveUrl nameInArchive outputName
                          outputDirectory true;;
      Return artifact
  end.

End Methods.

End OperaWebDriverInstaller.

Import OperaWebDriverInstaller.

(* ================================================================== *)
(** ** The specification's vocabulary *)
(* ================================================================== *)

Module Spec.

(** The whitespace-delimited tokens of a text, as the specification
    speaks of them: the maximal runs of characters that are not white
    space. *)
Fixpoint whitespaceTokens (s : string) : list string :=
  match s with
  | EmptyString => []
  | String c rest =>
      if JsString.isWhiteSpace c then whitespaceTokens rest
      else
        match rest with
        | EmptyString => [String c EmptyString]
        | String d _ =>
            if JsString.isWhiteSpace d then String c EmptyString :: whitespaceTokens rest
            else match whitespaceTokens rest with
                 | token :: tokens => String c token :: tokens
                 | [] => [String c EmptyString]
                 end
        end
  end.

(** The [n]-th (from 0) whitespace-delimited token of the trimmed text,
    absent when there are not that many. *)
Definition tokenOfTrimmed (n : nat) (text : string) : option string :=
  nth_error (whitespaceTokens (JsString.trim text)) n.

(** A returned value read as an optional string: the absent results
    carry none. *)
Definition present (v : value) : option string :=
  match v with
  | str s => Some s
  | null | undefined => None
  end.

(** Every character of [s] passes the test [p]. *)
Fixpoint every (p : ascii -> bool) (s : string) : bool :=
  match s with
  | EmptyString => true
  | String c rest => p c && every p rest
  end.

(** A token: not empty and free of white space. *)
Definition isToken (s : string) : Prop :=
  s <> EmptyString /\ every (fun c => negb (JsString.isWhiteSpace c)) s = true.

(** A text made of white space only. *)
Definition blank (s : string) : Prop := every JsString.isWhiteSpace s = true.

(** A text without a space character. *)
Definition spaceFree (s : string) : Prop :=
  every (fun c => negb (Ascii.eqb c " ")) s = true.

(** The tokens written one after the other with one space between
    neighbours. *)
Fixpoint spaced (tokens : list string) : string :=
  match tokens with
  | [] => EmptyString
  | t :: more =>
      match more with
      | [] => t
      | _ :: _ => t ++ " " ++ spaced more
      end
  end.

(** The text up to its first space character, the whole text when it has
    none. *)
Fixpoint upToFirstSpace (s : string) : string :=
  match s with
  | EmptyString => EmptyString
  | String c rest => if Ascii.eqb c " " then EmptyString else String c (upToFirstSpace rest)
  end.

(** The command that asks the installed driver for its version: the
    driver's path under the output directory, with [.exe] on Windows, and
    the argument [--version]. *)
Definition driverVersionCommand (h : Host) (outputDirectory : string) : call value :=
  getCommandOutputOrNullIfMissing
    [ if os_platform h =? "win32"
      then path_join h outputDirectory "operadriver" ++ ".exe"
      else path_join h outputDirectory "operadriver";
      "--version" ].

(** The operating systems the specification names, by the string
    [os.platform()] returns for each. *)
Inductive OS : Type := MacOS | Linux | Windows.

Definition platformOf (o : OS) : string :=
  match o with
  | MacOS => "darwin"
  | Linux => "linux"
  | Windows => "win32"
  end.

Definition supported (platform : string) : Prop :=
  exists o, platform = platformOf o.

(** The platform descriptor of the specification's data model: archive
    platform tag and binary suffix of each operating system. *)
Definition platformTag (o : OS) : string :=
  match o with
  | MacOS => "mac64"
  | Linux => "linux64"
  | Windows => "win64"
  end.

Definition binarySuffix (o : OS) : string :=
  match o with
  | Windows => ".exe"
  | MacOS | Linux => EmptyString
  end.

(** A probe finds a version when it resolves to a non-empty string, the
    one case JavaScript takes for true; it finds nothing when it resolves
    to [null], [undefined] or the empty string. *)
Definition finds (h : Host) (probe : call value) (version : value) : Prop :=
  settle h probe = Resolved version /\ truthy version = true.

Definition findsNothing (h : Host) (probe : call value) : Prop :=
  exists v, settle h probe = Resolved v /\ truthy v = false.

(** A tag with its version-control prefix, [v.] or else [v], taken off. *)
Inductive stripped : string -> string -> Prop :=
| stripped_v_dot (version : string) :
    stripped ("v." ++ version) version
| stripped_v (version : string) :
    (forall rest, version <> "." ++ rest) ->
    stripped ("v" ++ version) version
| stripped_none (tag : string) :
    (forall rest, tag <> "v" ++ rest) ->
    stripped tag tag.

End Spec.

(* ================================================================== *)
(** ** Sample hosts *)
(* ================================================================== *)

Module Sample.

Definition LF : ascii := "010"%char.

Definition sameArgs (a b : list string) : bool :=
  if list_eq_dec string_dec a b then true else false.

(** A host given by its platform, the user's name, the path separator,
    what the three probes resolve to, and how the tag query settles.
    [installBinary] succeeds with the path of the artifact. *)
Definition host (platform username separator : string)
    (macApp : string -> value) (command : list string -> value)
    (exe : string -> value) (latestTag : outcome string) : Host :=
  {| os_platform := platform;
     os_username := username;
     path_join := fun directory name => directory ++ separator ++ name;
     settle := fun R (c : call R) =>
       match c in call T return outcome T with
       | getMacAppVersion appName => Resolved (macApp appName)
       | getCommandOutputOrNullIfMissing args => Resolved (command args)
       | getWindowsExeVersion exePath => Resolved (exe exePath)
       | fetchLatestGitHubTag _ => latestTag
       | installBinary _ _ outputName outputDirectory _ =>
           Resolved (outputDirectory ++ separator ++ outputName)
       end |}.

Definition nothing {A : Type} (_ : A) : value := null.

Definition only (key answer : string) (asked : string) : value :=
  if asked =? key then str answer else null.

Definition onlyCommand (key : list string) (answer : string)
    (asked : list string) : value :=
  if sameArgs asked key then str answer else null.

Definition tagged (tag : string) : outcome string := Resolved tag.

(** A Linux machine without Opera where the installed driver answers
    [--version] with [output]. *)
Definition linuxWithDriver (output : string) : Host :=
  host "linux" "alice" "/" nothing
    (onlyCommand ["/tmp/drivers/operadriver"; "--version"] output)
    nothing (tagged "v114.0.5735.90").

(** A Linux machine where the Snap build of Opera answers [--version]
    with [output] and no [opera] is on the PATH. *)
Definition linuxWithSnapOpera (output : string) : Host :=
  host "linux" "alice" "/" nothing
    (onlyCommand ["/snap/bin/opera"; "--version"] output)
    nothing (tagged "v114.0.5735.90").

(** A Linux machine where only the [opera] on the PATH answers. *)
Definition linuxWithPathOpera (output : string) : Host :=
  host "linux" "alice" "/" nothing
    (onlyCommand ["opera"; "--version"] output)
    nothing (tagged "v114.0.5735.90").

(** A Linux machine with neither browser nor driver. *)
Definition bareLinux : Host :=
  host "linux" "alice" "/" nothing nothing nothing (tagged "v.114.0.5735.90").

(** A Mac where the bundle called [appName] has version [version]. *)
Definition mac (appName version : string) : Host :=
  host "darwin" "alice" "/" (only appName version) nothing nothing
    (tagged "114.0.5735.90").

(** A Windows machine where the executable at [exePath] has version
    [version]. *)
Definition windows (exePath version : string) : Host :=
  host "win32" "alice" "\" nothing nothing (only exePath version)
    (tagged "v114.0.5735.90").

(** A machine of a platform the plugin does not know. *)
Definition freebsd : Host :=
  host "freebsd" "alice" "/" nothing nothing nothing (tagged "v114.0.5735.90").

End Sample.

(* ================================================================== *)
(** ** Shapes of method bodies *)
(* ================================================================== *)

Module Shape.

(** A body without a [throw] of its own, whatever its calls resolve to. *)
Inductive throwFree {A : Type} : prog A -> Prop :=
| throwFree_Return (a : A) : throwFree (Return a)
| throwFree_Await (R : Type) (c : call R) (k : R -> prog A) :
    (forall r, throwFree (k r)) -> throwFree (Await c k).

(** A body all of whose calls pass the test [ok], whatever they resolve
    to. *)
Inductive callsOnly {A : Type} (ok : event -> bool) : prog A -> Prop :=
| callsOnly_Return (a : A) : callsOnly ok (Return a)
| callsOnly_Throw (e : error) : callsOnly ok (Throw e)
| callsOnly_Await (R : Type) (c : call R) (k : R -> prog A) :
    ok (Invoke c) = true ->
    (forall r, callsOnly ok (k r)) -> callsOnly ok (Await c k).

(** A call that neither goes to the network nor writes a file. *)
Definition readOnly (e : event) : bool :=
  negb (isNetworkRequest e || isFilesystemWrite e).

(** What a probe is asked about: the bundle name, the command, or the
    path of the executable. *)
Definition subject (e : event) : string :=
  match e with
  | Invoke (getMacAppVersion appName) => appName
  | Invoke (getCommandOutputOrNullIfMissing (command :: _)) => command
  | Invoke (getWindowsExeVersion exePath) => exePath
  | Invoke _ => EmptyString
  end.

(** The archive a call downloads. *)
Definition archiveOf (e : event) : option string :=
  match e with
  | Invoke (installBinary archiveUrl _ _ _ _) => Some archiveUrl
  | Invoke _ => None
  end.

End Shape.

Module Faulty.


End Faulty.

(** Closes a goal [NoDup l] for a list of strings that differ in their
    first characters. *)
Ltac distinct_strings :=
  repeat (apply NoDup_cons; [simpl; intuition discriminate |]); apply NoDup_nil.

Unset Implicit Arguments.

(* ================================================================== *)
(** ** Running method bodies *)
(* ================================================================== *)

Section Running.

Variable h : Host.

(** A method that ends by returning what its last call resolved to
    settles the way that call does. *)
Lemma run_await_return (R : Type) (c : call R) :
  run h (r <- await c;; Return r) = ([Invoke c], settle h c).
Proof.
  simpl. destruct (settle h c); reflexivity.
Qed.

Lemma run_await_resolved (A R : Type) (c : call R) (k : R -> prog A) (r : R) :
  settle h c = Resolved r ->
  run h (Await c k) = (Invoke c :: fst (run h (k r)), snd (run h (k r))).
Proof.
  intros Hc. simpl. rewrite Hc. destruct (run h (k r)); reflexivity.
Qed.

Lemma run_await_rejected (A R : Type) (c : call R) (k : R -> prog A) (e : error) :
  settle h c = Rejected e ->
  run h (Await c k) = ([Invoke c], Rejected e).
Proof.
  intros Hc. simpl. rewrite Hc. reflexivity.
Qed.

End Running.

(** The platform tests of the plugin compare [os.platform()] with string
    literals. *)
Lemma unsupported_tests (platform : string) :
  ~ Spec.supported platform ->
  (platform =? "darwin") = false /\
  (platform =? "linux") = false /\
  (platform =? "win32") = false.
Proof.
  intros Hno. repeat split; apply String.eqb_neq; intros ->; apply Hno.
  - exists Spec.MacOS; reflexivity.
  - exists Spec.Linux; reflexivity.
  - exists Spec.Windows; reflexivity.
Qed.

(* ================================================================== *)
(** ** install *)
(* ================================================================== *)

(** C1.  On Linux, [install driverVersion outputDirectory] makes one call,
    [installBinary], with the archive URL
    [https://github.com/operasoftware/operachromiumdriver/releases/download/v.]
    followed by [driverVersion] and [/operadriver_linux64.zip], the entry
    [operadriver_linux64/operadriver], the output name [operadriver], the
    given directory and [isZip = true], and settles as that call does; for
    the driver version 114.0.5735.90 the URL is the one the specification
    gives in full. *)
Theorem install_on_linux (h : Host) (driverVersion outputDirectory : string) :
  os_platform h = "linux" ->
  (let delegate :=
     installBinary
       ("https://github.com/operasoftware/operachromiumdriver/releases/download/v."
        ++ driverVersion ++ "/operadriver_linux64.zip")
       "operadriver_linux64/operadriver" "operadriver" outputDirectory true in
   run h (install h driverVersion outputDirectory)
   = ([Invoke delegate], settle h delegate))
  /\
  (let delegate :=
     installBinary
       "https://github.com/operasoftware/operachromiumdriver/releases/download/v.114.0.5735.90/operadriver_linux64.zip"
       "operadriver_linux64/operadriver" "operadriver" outputDirectory true in
   run h (install h "114.0.5735.90" outputDirectory)
   = ([Invoke delegate], settle h delegate)).
Proof.
  intros Hlinux.
  assert (Hgen : forall version,
             run h (install h version outputDirectory)
             = ([Invoke (installBinary
                   ("https://github.com/operasoftware/operachromiumdriver/releases/download/v."
                    ++ version ++ "/operadriver_linux64.zip")
                   "operadriver_linux64/operadriver" "operadriver" outputDirectory true)],
                settle h (installBinary
                   ("https://github.com/operasoftware/operachromiumdriver/releases/download/v."
                    ++ version ++ "/operadriver_linux64.zip")
                   "operadriver_linux64/operadriver" "operadriver" outputDirectory true))).
  { intros version. unfold install, platformAndBinaryName.
    rewrite Hlinux. cbn [String.eqb Ascii.eqb Bool.eqb andb].
    apply (run_await_return h). }
  split; cbv zeta.
  - apply Hgen.
  - apply (Hgen "114.0.5735.90").
Qed.

Lemma install_on_linux_witness :
  os_platform Sample.bareLinux = "linux" /\
  run Sample.bareLinux (install Sample.bareLinux "114.0.5735.90" "/tmp/drivers")
  = ([Invoke (installBinary
        "https://github.com/operasoftware/operachromiumdriver/releases/download/v.114.0.5735.90/operadriver_linux64.zip"
        "operadriver_linux64/operadriver" "operadriver" "/tmp/drivers" true)],
     Resolved "/tmp/drivers/operadriver").
Proof.
  split.
  - reflexivity.
  - exact (proj1 (install_on_linux Sample.bareLinux "114.0.5735.90" "/tmp/drivers" eq_refl)).
Defined.

(** C6.  On each of Linux, macOS and Windows, [install] settles on one
    platform tag, [linux64], [mac64] and [win64] in that order, with
    [.exe] added to the binary name on Windows alone; it then makes its
    one [installBinary] call for that tag and settles as the call does, so
    its own [throw] is not reached. *)
Theorem install_selects_platform (h : Host) (o : Spec.OS)
    (driverVersion outputDirectory : string) :
  os_platform h = Spec.platformOf o ->
  platformAndBinaryName h
  = Some (Spec.platformTag o, "operadriver" ++ Spec.binarySuffix o)
  /\ Spec.platformTag Spec.Linux = "linux64"
  /\ Spec.platformTag Spec.MacOS = "mac64"
  /\ Spec.platformTag Spec.Windows = "win64"
  /\ "operadriver" ++ Spec.binarySuffix Spec.Linux = "operadriver"
  /\ "operadriver" ++ Spec.binarySuffix Spec.MacOS = "operadriver"
  /\ "operadriver" ++ Spec.binarySuffix Spec.Windows = "operadriver.exe"
  /\ (let delegate :=
        installBinary
          ("https://github.com/operasoftware/operachromiumdriver/releases/download/v."
           ++ driverVersion ++ "/operadriver_" ++ Spec.platformTag o ++ ".zip")
          ("operadriver_" ++ Spec.platformTag o ++ "/operadriver" ++ Spec.binarySuffix o)
          ("operadriver" ++ Spec.binarySuffix o) outputDirectory true in
      install h driverVersion outputDirectory = (r <- await delegate;; Return r)
      /\ run h (install h driverVersion outputDirectory)
         = ([Invoke delegate], settle h delegate))
  /\ (forall e, install h driverVersion outputDirectory <> Throw e).
Proof.
  intros Hos.
  assert (Hsel : platformAndBinaryName h
                 = Some (Spec.platformTag o, "operadriver" ++ Spec.binarySuffix o)).
  { unfold platformAndBinaryName. rewrite Hos. destruct o; reflexivity. }
  assert (Hbody : install h driverVersion outputDirectory
                  = (r <- await
                       installBinary
                         ("https://github.com/operasoftware/operachromiumdriver/releases/download/v."
                          ++ driverVersion ++ "/operadriver_" ++ Spec.platformTag o ++ ".zip")
                         ("operadriver_" ++ Spec.platformTag o ++ "/operadriver"
                          ++ Spec.binarySuffix o)
                         ("operadriver" ++ Spec.binarySuffix o) outputDirectory true;;
                     Return r)).
  { unfold install. rewrite Hsel, Hos. destruct o; reflexivity. }
  repeat split; try reflexivity; try assumption.
  - rewrite Hbody. apply (run_await_return h).
  - intros e. rewrite Hbody. discriminate.
Qed.

Lemma install_selects_platform_witness :
  os_platform (Sample.windows "opera.exe" "114.0.5282.102") = Spec.platformOf Spec.Windows /\
  platformAndBinaryName (Sample.windows "opera.exe" "114.0.5282.102")
  = Some ("win64", "operadriver.exe") /\
  run (Sample.windows "opera.exe" "114.0.5282.102")
      (install (Sample.windows "opera.exe" "114.0.5282.102") "114.0.5735.90" "C:\drivers")
  = ([Invoke (installBinary
        "https://github.com/operasoftware/operachromiumdriver/releases/download/v.114.0.5735.90/operadriver_win64.zip"
        "operadriver_win64/operadriver.exe" "operadriver.exe" "C:\drivers" true)],
     Resolved "C:\drivers\operadriver.exe").
Proof.
  pose proof (install_selects_platform
                (Sample.windows "opera.exe" "114.0.5282.102") Spec.Windows
                "114.0.5735.90" "C:\drivers" eq_refl) as H.
  split; [reflexivity | split].
  - exact (proj1 H).
  - exact (proj2 (proj1 (proj2 (proj2 (proj2 (proj2 (proj2 (proj2 (proj2 H))))))))).
Defined.

(* ================================================================== *)
(** ** Unsupported platforms *)
(* ================================================================== *)

(** C5.  When [os.platform()] is none of [darwin], [linux] and [win32],
    [getInstalledBrowserVersion] and [install] are rejected with the
    unsupported-platform error, and neither has called a helper by then:
    no network request and no filesystem write were made. *)
Theorem unsupported_platform_rejected (h : Host)
    (driverVersion outputDirectory : string) :
  ~ Spec.supported (os_platform h) ->
  run h (getInstalledBrowserVersion h)
  = ([], Rejected (Error ("Unsupported platform: " ++ os_platform h)))
  /\ run h (install h driverVersion outputDirectory)
     = ([], Rejected (Error ("Unsupported platform: " ++ os_platform h)))
  /\ existsb isNetworkRequest (trace h (getInstalledBrowserVersion h)) = false
  /\ existsb isFilesystemWrite (trace h (getInstalledBrowserVersion h)) = false
  /\ existsb isNetworkRequest (trace h (install h driverVersion outputDirectory)) = false
  /\ existsb isFilesystemWrite (trace h (install h driverVersion outputDirectory)) = false.
Proof.
  intros Hno.
  destruct (unsupported_tests _ Hno) as (Hmac & Hlinux & Hwin).
  assert (Hbrowser : run h (getInstalledBrowserVersion h)
                     = ([], Rejected (Error ("Unsupported platform: " ++ os_platform h)))).
  { unfold getInstalledBrowserVersion. rewrite Hmac, Hlinux, Hwin. reflexivity. }
  assert (Hinstall : run h (install h driverVersion outputDirectory)
                     = ([], Rejected (Error ("Unsupported platform: " ++ os_platform h)))).
  { unfold install, platformAndBinaryName. rewrite Hmac, Hlinux, Hwin. reflexivity. }
  unfold trace. rewrite Hbrowser, Hinstall. repeat split.
Qed.

Lemma freebsd_unsupported : ~ Spec.supported (os_platform Sample.freebsd).
Proof.
  intros [o Ho]. destruct o; discriminate Ho.
Qed.

Lemma unsupported_platform_rejected_witness :
  ~ Spec.supported (os_platform Sample.freebsd) /\
  run Sample.freebsd (getInstalledBrowserVersion Sample.freebsd)
  = ([], Rejected (Error "Unsupported platform: freebsd")) /\
  run Sample.freebsd (install Sample.freebsd "114.0.5735.90" "/tmp/drivers")
  = ([], Rejected (Error "Unsupported platform: freebsd")).
Proof.
  pose proof (unsupported_platform_rejected Sample.freebsd
                "114.0.5735.90" "/tmp/drivers" freebsd_unsupported) as H.
  split; [exact freebsd_unsupported | split].
  - exact (proj1 H).
  - exact (proj1 (proj2 H)).
Defined.


(* ================================================================== *)
(** ** getBestDriverVersion *)
(* ================================================================== *)

(** Replacing [/^v\.?/] by the empty string takes the prefix off. *)
Lemma replace_tagPrefix_stripped (tag : string) :
  Spec.stripped tag (JsString.replace tagPrefix EmptyString tag).
Proof.
  unfold JsString.replace, tagPrefix.
  destruct tag as [|c rest].
  - simpl. apply Spec.stripped_none. intros rest H. discriminate H.
  - cbn [JsString.matchPrefix].
    destruct (Ascii.eqb_spec c "v") as [-> | Hc].
    + destruct rest as [|d rest'].
      * simpl. apply (@Spec.stripped_v EmptyString). intros rest H. discriminate H.
      * destruct (Ascii.eqb_spec d ".") as [-> | Hd].
        -- simpl. apply (Spec.stripped_v_dot rest').
        -- simpl. apply (@Spec.stripped_v (String d rest')).
           intros rest H. injection H as Hd' _. contradiction.
    + simpl. apply Spec.stripped_none.
      intros rest' H. injection H as Hc' _. contradiction.
Qed.

(** A tag has one stripped form. *)
Lemma stripped_functional (tag v1 v2 : string) :
  Spec.stripped tag v1 -> Spec.stripped tag v2 -> v1 = v2.
Proof.
  intros H1 H2.
  inversion H1 as [a Ha Hb | a Hda Ha Hb | a Hva Ha Hb];
    inversion H2 as [b Hc Hd | b Hdb Hc Hd | b Hvb Hc Hd]; subst; simpl in *;
    try reflexivity;
    repeat match goal with
      | E : String _ _ = String _ _ |- _ => injection E as E; subst
      end;
    try reflexivity; exfalso;
    match goal with
    | N : forall rest, _ <> _ |- _ => solve [eapply N; reflexivity]
    end.
Qed.

(** C2.  Whatever tag the latest-tag query for
    [operasoftware/operachromiumdriver] resolves to, [getBestDriverVersion]
    makes that one query and resolves to the tag with its leading [v.] or
    [v] taken off; the tags v114.0.5735.90, v.114.0.5735.90 and
    114.0.5735.90 all give 114.0.5735.90. *)
Theorem getBestDriverVersion_strips_prefix (h : Host) (browserVersion : value)
    (tag : string) :
  settle h (fetchLatestGitHubTag "operasoftware/operachromiumdriver") = Resolved tag ->
  exists version,
    run h (getBestDriverVersion browserVersion)
    = ([Invoke (fetchLatestGitHubTag "operasoftware/operachromiumdriver")],
       Resolved version)
    /\ Spec.stripped tag version
    /\ (forall other, Spec.stripped tag other -> other = version)
    /\ (tag = "v114.0.5735.90" -> version = "114.0.5735.90")
    /\ (tag = "v.114.0.5735.90" -> version = "114.0.5735.90")
    /\ (tag = "114.0.5735.90" -> version = "114.0.5735.90").
Proof.
  intros Htag.
  exists (JsString.replace tagPrefix EmptyString tag).
  split; [| split; [| split; [| repeat split]]].
  - unfold getBestDriverVersion.
    rewrite (run_await_resolved h _ _ _ _ _ Htag). reflexivity.
  - apply replace_tagPrefix_stripped.
  - intros other Hother.
    apply (stripped_functional tag); [assumption | apply replace_tagPrefix_stripped].
  - intros ->. reflexivity.
  - intros ->. reflexivity.
  - intros ->. reflexivity.
Qed.

Lemma getBestDriverVersion_strips_prefix_witness :
  settle Sample.bareLinux (fetchLatestGitHubTag "operasoftware/operachromiumdriver")
  = Resolved "v.114.0.5735.90" /\
  exists version,
    run Sample.bareLinux (getBestDriverVersion (str "114.0.5282.102"))
    = ([Invoke (fetchLatestGitHubTag "operasoftware/operachromiumdriver")],
       Resolved version)
    /\ version = "114.0.5735.90".
Proof.
  split; [reflexivity |].
  destruct (getBestDriverVersion_strips_prefix Sample.bareLinux
              (str "114.0.5282.102") "v.114.0.5735.90" eq_refl)
    as (version & Hrun & _ & _ & _ & Hvdot & _).
  exists version. split; [exact Hrun | exact (Hvdot eq_refl)].
Defined.

(** C9.  [getBestDriverVersion] does not look at its argument: on hosts
    where the latest-tag query for [operasoftware/operachromiumdriver]
    settles the same way, any two browser versions give the same calls and
    the same outcome, and the one call made is that query. *)
Theorem getBestDriverVersion_ignores_browserVersion (h1 h2 : Host)
    (browserVersion1 browserVersion2 : value) :
  settle h1 (fetchLatestGitHubTag "operasoftware/operachromiumdriver")
  = settle h2 (fetchLatestGitHubTag "operasoftware/operachromiumdriver") ->
  run h1 (getBestDriverVersion browserVersion1)
  = run h2 (getBestDriverVersion browserVersion2)
  /\ trace h1 (getBestDriverVersion browserVersion1)
     = [Invoke (fetchLatestGitHubTag "operasoftware/operachromiumdriver")].
Proof.
  intros Hsame. unfold trace, getBestDriverVersion. simpl.
  rewrite Hsame.
  destruct (settle h2 (fetchLatestGitHubTag "operasoftware/operachromiumdriver"));
    split; reflexivity.
Qed.

Lemma getBestDriverVersion_ignores_browserVersion_witness :
  settle (Sample.linuxWithSnapOpera "114.0.5282.102")
         (fetchLatestGitHubTag "operasoftware/operachromiumdriver")
  = settle (Sample.windows "opera.exe" "99.0.4788.77")
           (fetchLatestGitHubTag "operasoftware/operachromiumdriver") /\
  run (Sample.linuxWithSnapOpera "114.0.5282.102") (getBestDriverVersion (str "114.0.5282.102"))
  = run (Sample.windows "opera.exe" "99.0.4788.77") (getBestDriverVersion null).
Proof.
  split; [reflexivity |].
  exact (proj1 (getBestDriverVersion_ignores_browserVersion
                  (Sample.linuxWithSnapOpera "114.0.5282.102")
                  (Sample.windows "opera.exe" "99.0.4788.77")
                  (str "114.0.5282.102") null eq_refl)).
Defined.


(* ================================================================== *)
(** ** getInstalledBrowserVersion on macOS and Windows *)
(* ================================================================== *)

Lemma absent_not_truthy (v : value) : absent v -> truthy v = false.
Proof.
  intros [-> | ->]; reflexivity.
Qed.

(** C8.  On macOS, [getInstalledBrowserVersion] asks for the bundle
    [Opera] and then, only when that found nothing, for [Opera Stable]:
    a version found for [Opera] is returned without a second probe;
    otherwise the method settles as the probe of [Opera Stable] does; when
    both are absent so is the result.  No other probe is made. *)
Theorem macos_tries_two_bundle_names (h : Host) :
  os_platform h = "darwin" ->
  (forall version,
      Spec.finds h (getMacAppVersion "Opera") version ->
      run h (getInstalledBrowserVersion h)
      = ([Invoke (getMacAppVersion "Opera")], Resolved version))
  /\ (Spec.findsNothing h (getMacAppVersion "Opera") ->
      run h (getInstalledBrowserVersion h)
      = ([Invoke (getMacAppVersion "Opera"); Invoke (getMacAppVersion "Opera Stable")],
         settle h (getMacAppVersion "Opera Stable")))
  /\ (forall first second,
      settle h (getMacAppVersion "Opera") = Resolved first -> absent first ->
      settle h (getMacAppVersion "Opera Stable") = Resolved second -> absent second ->
      exists v, result h (getInstalledBrowserVersion h) = Resolved v /\ absent v)
  /\ (trace h (getInstalledBrowserVersion h) = [Invoke (getMacAppVersion "Opera")]
      \/ trace h (getInstalledBrowserVersion h)
         = [Invoke (getMacAppVersion "Opera"); Invoke (getMacAppVersion "Opera Stable")]).
Proof.
  intros Hmac.
  assert (Hbody : getInstalledBrowserVersion h
                  = (first <- await getMacAppVersion "Opera";;
                     if truthy first then Return first
                     else second <- await getMacAppVersion "Opera Stable";;
                          Return second)).
  { unfold getInstalledBrowserVersion. rewrite Hmac. reflexivity. }
  assert (Hfound : forall version,
             Spec.finds h (getMacAppVersion "Opera") version ->
             run h (getInstalledBrowserVersion h)
             = ([Invoke (getMacAppVersion "Opera")], Resolved version)).
  { intros version [Hsettle Htrue]. rewrite Hbody.
    rewrite (run_await_resolved h _ _ _ _ _ Hsettle), Htrue. reflexivity. }
  assert (Hnothing : Spec.findsNothing h (getMacAppVersion "Opera") ->
             run h (getInstalledBrowserVersion h)
             = ([Invoke (getMacAppVersion "Opera");
                 Invoke (getMacAppVersion "Opera Stable")],
                settle h (getMacAppVersion "Opera Stable"))).
  { intros (v & Hsettle & Hfalse). rewrite Hbody.
    rewrite (run_await_resolved h _ _ _ _ _ Hsettle), Hfalse.
    rewrite (run_await_return h). reflexivity. }
  repeat split; try assumption.
  - intros first second Hfirst Hafirst Hsecond Hasecond.
    exists second. split; [| assumption].
    unfold result. rewrite Hnothing.
    + exact Hsecond.
    + exists first. split; [assumption | apply absent_not_truthy; assumption].
  - unfold trace.
    destruct (settle h (getMacAppVersion "Opera")) as [v | e] eqn:Hsettle.
    + destruct (truthy v) eqn:Htruthy.
      * left. rewrite (Hfound v); [reflexivity | split; assumption].
      * right. rewrite Hnothing; [reflexivity | exists v; split; assumption].
    + left. rewrite Hbody, (run_await_rejected h _ _ _ _ _ Hsettle). reflexivity.
Qed.

Lemma macos_tries_two_bundle_names_witness :
  os_platform (Sample.mac "Opera Stable" "114.0.5282.102") = "darwin" /\
  Spec.findsNothing (Sample.mac "Opera Stable" "114.0.5282.102") (getMacAppVersion "Opera") /\
  run (Sample.mac "Opera Stable" "114.0.5282.102")
      (getInstalledBrowserVersion (Sample.mac "Opera Stable" "114.0.5282.102"))
  = ([Invoke (getMacAppVersion "Opera"); Invoke (getMacAppVersion "Opera Stable")],
     Resolved (str "114.0.5282.102")).
Proof.
  assert (Hnothing : Spec.findsNothing (Sample.mac "Opera Stable" "114.0.5282.102")
                       (getMacAppVersion "Opera")).
  { exists null. split; reflexivity. }
  split; [reflexivity | split; [exact Hnothing |]].
  exact (proj1 (proj2 (macos_tries_two_bundle_names
                         (Sample.mac "Opera Stable" "114.0.5282.102") eq_refl))
           Hnothing).
Defined.

(** The loop stops at the first path whose executable has a version. *)
Lemma forPossiblePaths_found (h : Host) (afterLoop : prog value)
    (before : list string) (exePath : string) (after : list string) (version : value) :
  Forall (fun p => Spec.findsNothing h (getWindowsExeVersion p)) before ->
  Spec.finds h (getWindowsExeVersion exePath) version ->
  run h (forPossiblePaths (before ++ exePath :: after)%list afterLoop)
  = (map (fun p => Invoke (getWindowsExeVersion p)) (before ++ [exePath])%list,
     Resolved version).
Proof.
  intros Hbefore [Hsettle Htrue].
  induction Hbefore as [| p before (v & Hp & Hfalse) _ IH]; simpl.
  - rewrite Hsettle, Htrue. reflexivity.
  - rewrite Hp, Hfalse. simpl in IH. rewrite IH. reflexivity.
Qed.

(** When no path has a version the code after the loop runs. *)
Lemma forPossiblePaths_exhausted (h : Host) (afterLoop : prog value)
    (paths : list string) :
  Forall (fun p => Spec.findsNothing h (getWindowsExeVersion p)) paths ->
  run h (forPossiblePaths paths afterLoop)
  = ((map (fun p => Invoke (getWindowsExeVersion p)) paths ++ trace h afterLoop)%list,
     result h afterLoop).
Proof.
  intros Hpaths. unfold trace, result.
  induction Hpaths as [| p paths (v & Hp & Hfalse) _ IH]; simpl.
  - destruct (run h afterLoop); reflexivity.
  - rewrite Hp, Hfalse, IH. reflexivity.
Qed.

(** C7.  On Windows, [getInstalledBrowserVersion] probes, in this order,
    [C:\Program Files\Opera\opera.exe],
    [C:\Program Files (x86)\Opera\opera.exe] and
    [C:\Users\<username>\AppData\Local\Programs\Opera\opera.exe] with the
    name of the current user, and returns the first version found without
    probing further; when the three find nothing it probes the bare name
    [opera.exe] and settles as that probe does. *)
Theorem windows_probes_paths_in_order (h : Host) :
  os_platform h = "win32" ->
  let programFiles := getWindowsExeVersion "C:\Program Files\Opera\opera.exe" in
  let programFilesX86 := getWindowsExeVersion "C:\Program Files (x86)\Opera\opera.exe" in
  let perUser :=
    getWindowsExeVersion
      ("C:\Users\" ++ os_username h ++ "\AppData\Local\Programs\Opera\opera.exe") in
  let onPath := getWindowsExeVersion "opera.exe" in
  (forall version,
      Spec.finds h programFiles version ->
      run h (getInstalledBrowserVersion h) = ([Invoke programFiles], Resolved version))
  /\ (forall version,
      Spec.findsNothing h programFiles ->
      Spec.finds h programFilesX86 version ->
      run h (getInstalledBrowserVersion h)
      = ([Invoke programFiles; Invoke programFilesX86], Resolved version))
  /\ (forall version,
      Spec.findsNothing h programFiles ->
      Spec.findsNothing h programFilesX86 ->
      Spec.finds h perUser version ->
      run h (getInstalledBrowserVersion h)
      = ([Invoke programFiles; Invoke programFilesX86; Invoke perUser], Resolved version))
  /\ (Spec.findsNothing h programFiles ->
      Spec.findsNothing h programFilesX86 ->
      Spec.findsNothing h perUser ->
      run h (getInstalledBrowserVersion h)
      = ([Invoke programFiles; Invoke programFilesX86; Invoke perUser; Invoke onPath],
         settle h onPath)).
Proof.
  intros Hwin.
  assert (Hbody : getInstalledBrowserVersion h
                  = forPossiblePaths (possiblePaths h)
                      (version <- await getWindowsExeVersion "opera.exe";;
                       Return version)).
  { unfold getInstalledBrowserVersion. rewrite Hwin. reflexivity. }
  cbv zeta. rewrite Hbody. unfold possiblePaths.
  split; [| split; [| split]].
  - intros version Hfound.
    apply (forPossiblePaths_found h _ [] _ _ version); [constructor | exact Hfound].
  - intros version H1 Hfound.
    apply (forPossiblePaths_found h _ [_] _ _ version); [| exact Hfound].
    repeat constructor; assumption.
  - intros version H1 H2 Hfound.
    apply (forPossiblePaths_found h _ [_; _] _ _ version); [| exact Hfound].
    repeat constructor; assumption.
  - intros H1 H2 H3.
    rewrite forPossiblePaths_exhausted by (repeat constructor; assumption).
    unfold trace, result. rewrite (run_await_return h). reflexivity.
Qed.

Lemma windows_probes_paths_in_order_witness :
  os_platform (Sample.windows "C:\Users\alice\AppData\Local\Programs\Opera\opera.exe"
                 "114.0.5282.102") = "win32" /\
  run (Sample.windows "C:\Users\alice\AppData\Local\Programs\Opera\opera.exe" "114.0.5282.102")
      (getInstalledBrowserVersion
         (Sample.windows "C:\Users\alice\AppData\Local\Programs\Opera\opera.exe"
            "114.0.5282.102"))
  = ([Invoke (getWindowsExeVersion "C:\Program Files\Opera\opera.exe");
      Invoke (getWindowsExeVersion "C:\Program Files (x86)\Opera\opera.exe");
      Invoke (getWindowsExeVersion "C:\Users\alice\AppData\Local\Programs\Opera\opera.exe")],
     Resolved (str "114.0.5282.102")).
Proof.
  split; [reflexivity |].
  refine (proj1 (proj2 (proj2 (windows_probes_paths_in_order
            (Sample.windows "C:\Users\alice\AppData\Local\Programs\Opera\opera.exe"
               "114.0.5282.102") eq_refl)))
            (str "114.0.5282.102") _ _ _).
  - exists null. split; reflexivity.
  - exists null. split; reflexivity.
  - split; reflexivity.
Defined.


(* ================================================================== *)
(** ** Trimming and splitting *)
(* ================================================================== *)

Section Strings.

Import JsString.

Lemma every_app (p : ascii -> bool) (a b : string) :
  Spec.every p (a ++ b) = Spec.every p a && Spec.every p b.
Proof.
  induction a as [| c a IH]; simpl.
  - reflexivity.
  - rewrite IH. apply andb_assoc.
Qed.

Lemma space_isWhiteSpace : isWhiteSpace " " = true.
Proof. reflexivity. Qed.

Lemma token_spaceFree (t : string) :
  Spec.every (fun c => negb (isWhiteSpace c)) t = true -> Spec.spaceFree t.
Proof.
  unfold Spec.spaceFree.
  induction t as [| c t IH]; simpl; intros H.
  - reflexivity.
  - apply andb_true_iff in H as [Hc Ht].
    rewrite (IH Ht), andb_true_r.
    destruct (Ascii.eqb_spec c " ") as [-> | _]; [discriminate Hc | reflexivity].
Qed.

(** A text without the separator is one piece. *)
Lemma split_spaceFree (s : string) :
  Spec.spaceFree s -> split " " s = [s].
Proof.
  unfold Spec.spaceFree.
  induction s as [| c s IH]; simpl; intros H.
  - reflexivity.
  - apply andb_true_iff in H as [Hc Hs].
    destruct (Ascii.eqb c " "); [discriminate Hc |].
    rewrite (IH Hs). reflexivity.
Qed.

(** The first piece ends at the first separator. *)
Lemma split_app_space (t rest : string) :
  Spec.spaceFree t -> split " " (t ++ String " " rest) = t :: split " " rest.
Proof.
  unfold Spec.spaceFree.
  induction t as [| c t IH]; simpl; intros H.
  - reflexivity.
  - apply andb_true_iff in H as [Hc Ht].
    destruct (Ascii.eqb c " "); [discriminate Hc |].
    rewrite (IH Ht). reflexivity.
Qed.

Lemma split_first_piece (s : string) :
  index (split " " s) 0 = str (Spec.upToFirstSpace s).
Proof.
  induction s as [| c s IH]; simpl.
  - reflexivity.
  - destruct (Ascii.eqb c " "); [reflexivity |].
    unfold index in IH.
    destruct (split " " s) as [| piece pieces]; simpl in *.
    + discriminate IH.
    + injection IH as ->. reflexivity.
Qed.

(** Tokens one space apart are the pieces of their text. *)
Lemma split_spaced (tokens : list string) :
  Forall Spec.isToken tokens -> tokens <> [] ->
  split " " (Spec.spaced tokens) = tokens.
Proof.
  intros Htokens. induction Htokens as [| t more [_ Ht] Hmore IH]; intros Hne.
  - contradiction.
  - destruct more as [| t' more'].
    + simpl. apply split_spaceFree, token_spaceFree, Ht.
    + change (Spec.spaced (t :: t' :: more'))
        with (t ++ String " " (Spec.spaced (t' :: more'))).
      rewrite split_app_space by (apply token_spaceFree, Ht).
      rewrite IH by discriminate. reflexivity.
Qed.

(** They are its whitespace-delimited tokens as well. *)
Lemma whitespaceTokens_token (t : string) :
  Spec.isToken t -> Spec.whitespaceTokens t = [t].
Proof.
  intros [Hne Ht]. induction t as [| c t IH]; [contradiction |].
  simpl in Ht. apply andb_true_iff in Ht as [Hc Ht].
  apply negb_true_iff in Hc.
  cbn [Spec.whitespaceTokens]. rewrite Hc.
  destruct t as [| d t']; [reflexivity |].
  assert (Hd : isWhiteSpace d = false).
  { simpl in Ht. apply andb_true_iff in Ht as [Hd _]. apply negb_true_iff, Hd. }
  rewrite Hd. rewrite IH; [reflexivity | discriminate | exact Ht].
Qed.

Lemma whitespaceTokens_token_space (t rest : string) :
  Spec.isToken t ->
  Spec.whitespaceTokens (t ++ String " " rest) = t :: Spec.whitespaceTokens rest.
Proof.
  intros [Hne Ht]. induction t as [| c t IH]; [contradiction |].
  simpl in Ht. apply andb_true_iff in Ht as [Hc Ht].
  apply negb_true_iff in Hc.
  cbn [Spec.whitespaceTokens append]. rewrite Hc.
  destruct t as [| d t'].
  - cbn [append]. rewrite space_isWhiteSpace.
    cbn [Spec.whitespaceTokens]. rewrite space_isWhiteSpace. reflexivity.
  - assert (Hd : isWhiteSpace d = false).
    { simpl in Ht. apply andb_true_iff in Ht as [Hd _]. apply negb_true_iff, Hd. }
    cbn [append] in *. rewrite Hd.
    rewrite IH; [reflexivity | discriminate | exact Ht].
Qed.

Lemma whitespaceTokens_spaced (tokens : list string) :
  Forall Spec.isToken tokens ->
  Spec.whitespaceTokens (Spec.spaced tokens) = tokens.
Proof.
  intros Htokens. induction Htokens as [| t more Ht Hmore IH].
  - reflexivity.
  - destruct more as [| t' more'].
    + simpl. apply whitespaceTokens_token, Ht.
    + change (Spec.spaced (t :: t' :: more'))
        with (t ++ String " " (Spec.spaced (t' :: more'))).
      rewrite whitespaceTokens_token_space by exact Ht.
      rewrite IH. reflexivity.
Qed.

End Strings.

Section Trimming.

Import JsString.

Lemma trimStart_blank_app (lead s : string) :
  Spec.blank lead -> trimStart (lead ++ s) = trimStart s.
Proof.
  unfold Spec.blank.
  induction lead as [| c lead IH]; simpl; intros H.
  - reflexivity.
  - apply andb_true_iff in H as [Hc Hlead]. rewrite Hc. apply IH, Hlead.
Qed.

Lemma trimStart_token_app (t s : string) :
  Spec.isToken t -> trimStart (t ++ s) = t ++ s.
Proof.
  intros [Hne Ht]. destruct t as [| c t]; [contradiction |].
  simpl in *. apply andb_true_iff in Ht as [Hc _].
  apply negb_true_iff in Hc. rewrite Hc. reflexivity.
Qed.

Lemma trimEnd_blank (trail : string) :
  Spec.blank trail -> trimEnd trail = EmptyString.
Proof.
  unfold Spec.blank.
  induction trail as [| c trail IH]; simpl; intros H.
  - reflexivity.
  - apply andb_true_iff in H as [Hc Htrail]. rewrite (IH Htrail), Hc. reflexivity.
Qed.

Lemma trimEnd_app_blank (s trail : string) :
  Spec.blank trail -> trimEnd (s ++ trail) = trimEnd s.
Proof.
  intros Htrail. induction s as [| c s IH]; simpl.
  - apply trimEnd_blank, Htrail.
  - rewrite IH. reflexivity.
Qed.

Lemma trimEnd_app_kept (a b : string) :
  trimEnd b <> EmptyString -> trimEnd (a ++ b) = a ++ trimEnd b.
Proof.
  intros Hb. induction a as [| c a IH]; simpl.
  - reflexivity.
  - rewrite IH. destruct (a ++ trimEnd b) as [| d rest] eqn:Hab; [| reflexivity].
    destruct a; simpl in Hab; [contradiction | discriminate].
Qed.

Lemma trimEnd_token (t : string) : Spec.isToken t -> trimEnd t = t.
Proof.
  intros [Hne Ht]. induction t as [| c t IH]; [contradiction |].
  simpl in Ht. apply andb_true_iff in Ht as [Hc Ht].
  apply negb_true_iff in Hc. simpl.
  destruct t as [| d t'].
  - simpl. rewrite Hc. reflexivity.
  - rewrite IH; [reflexivity | discriminate | exact Ht].
Qed.

Lemma spaced_not_empty (tokens : list string) :
  Forall Spec.isToken tokens -> tokens <> [] -> Spec.spaced tokens <> EmptyString.
Proof.
  intros Htokens Hne. destruct Htokens as [| t more [Ht _] _]; [contradiction |].
  destruct more; simpl.
  - exact Ht.
  - destruct t; [contradiction | discriminate].
Qed.

Lemma trimEnd_spaced (tokens : list string) :
  Forall Spec.isToken tokens -> trimEnd (Spec.spaced tokens) = Spec.spaced tokens.
Proof.
  intros Htokens. induction Htokens as [| t more Ht Hmore IH].
  - reflexivity.
  - destruct more as [| t' more'].
    + simpl. apply trimEnd_token, Ht.
    + change (Spec.spaced (t :: t' :: more'))
        with (t ++ (String " " EmptyString ++ Spec.spaced (t' :: more'))).
      assert (Hkept : trimEnd (Spec.spaced (t' :: more')) <> EmptyString).
      { rewrite IH. apply spaced_not_empty; [exact Hmore | discriminate]. }
      assert (Hsep : trimEnd (String " " EmptyString ++ Spec.spaced (t' :: more'))
                     = String " " EmptyString ++ Spec.spaced (t' :: more')).
      { rewrite trimEnd_app_kept by exact Hkept. rewrite IH. reflexivity. }
      rewrite trimEnd_app_kept; rewrite Hsep; [reflexivity | discriminate].
Qed.

Lemma trimStart_spaced (tokens : list string) (s : string) :
  Forall Spec.isToken tokens -> tokens <> [] ->
  trimStart (Spec.spaced tokens ++ s) = Spec.spaced tokens ++ s.
Proof.
  intros Htokens Hne. destruct Htokens as [| t more Ht _]; [contradiction |].
  destruct more as [| t' more'].
  - simpl. apply trimStart_token_app, Ht.
  - change (Spec.spaced (t :: t' :: more'))
      with (t ++ String " " (Spec.spaced (t' :: more'))).
    destruct Ht as [Hne' Ht]. destruct t as [| c t]; [contradiction |].
    simpl in Ht. apply andb_true_iff in Ht as [Hc _].
    apply negb_true_iff in Hc. cbn [append trimStart]. rewrite Hc. reflexivity.
Qed.

(** Trimming leaves single-spaced tokens as they are and removes white
    space around them. *)
Lemma trim_padded_spaced (lead trail : string) (tokens : list string) :
  Spec.blank lead -> Spec.blank trail ->
  Forall Spec.isToken tokens -> tokens <> [] ->
  trim (lead ++ Spec.spaced tokens ++ trail) = Spec.spaced tokens.
Proof.
  intros Hlead Htrail Htokens Hne. unfold trim.
  rewrite trimStart_blank_app by exact Hlead.
  rewrite trimStart_spaced by assumption.
  rewrite trimEnd_app_blank by exact Htrail.
  apply trimEnd_spaced, Htokens.
Qed.

End Trimming.


(* ================================================================== *)
(** ** getInstalledDriverVersion *)
(* ================================================================== *)

(** The method runs the driver's version command and hands the output to
    the closing expression. *)
Lemma getInstalledDriverVersion_run (h : Host) (outputDirectory : string) :
  run h (getInstalledDriverVersion h outputDirectory)
  = ([Invoke (Spec.driverVersionCommand h outputDirectory)],
     match settle h (Spec.driverVersionCommand h outputDirectory) with
     | Resolved output => Resolved (trimmedPieceOrNull output 1)
     | Rejected e => Rejected e
     end).
Proof.
  unfold getInstalledDriverVersion, Spec.driverVersionCommand, getDriverName.
  destruct (os_platform h =? "win32"); simpl;
    match goal with |- context [settle h ?c] => destruct (settle h c) end;
    reflexivity.
Qed.

Lemma truthy_str (s : string) : s <> EmptyString -> truthy (str s) = true.
Proof.
  intros Hs. simpl. apply negb_true_iff, String.eqb_neq, Hs.
Qed.

Lemma append_empty (a b : string) :
  a ++ b = EmptyString -> a = EmptyString /\ b = EmptyString.
Proof.
  destruct a; simpl; intros H; [split; [reflexivity | exact H] | discriminate H].
Qed.

(** On single-spaced tokens the piece taken by the code is the token of
    the same rank. *)
Lemma trimmedPieceOrNull_spaced (lead trail : string) (tokens : list string) (i : nat) :
  Spec.blank lead -> Spec.blank trail ->
  Forall Spec.isToken tokens -> tokens <> [] ->
  Spec.present (trimmedPieceOrNull (str (lead ++ Spec.spaced tokens ++ trail)) i)
  = nth_error tokens i
  /\ Spec.tokenOfTrimmed i (lead ++ Spec.spaced tokens ++ trail) = nth_error tokens i.
Proof.
  intros Hlead Htrail Htokens Hne.
  unfold trimmedPieceOrNull, Spec.tokenOfTrimmed.
  rewrite trim_padded_spaced by assumption.
  rewrite whitespaceTokens_spaced by assumption.
  rewrite split_spaced by assumption.
  split; [| reflexivity].
  destruct (truthy (str (lead ++ Spec.spaced tokens ++ trail))) eqn:Htruthy.
  - unfold index. destruct (nth_error tokens i); reflexivity.
  - exfalso. simpl in Htruthy. apply negb_false_iff, String.eqb_eq in Htruthy.
    apply append_empty in Htruthy as [_ Hrest].
    apply append_empty in Hrest as [Hbody _].
    exact (spaced_not_empty tokens Htokens Hne Hbody).
Qed.

(** C10.  When the driver's version command prints a non-empty text whose
    trimmed form has no space character, [getInstalledDriverVersion]
    resolves to [undefined], an absent result: the split yields one piece
    and index 1 is out of range.  It does not reject and does not return
    the lone piece. *)
Theorem single_piece_output_is_absent (h : Host) (outputDirectory output : string) :
  settle h (Spec.driverVersionCommand h outputDirectory) = Resolved (str output) ->
  output <> EmptyString ->
  Spec.spaceFree (JsString.trim output) ->
  run h (getInstalledDriverVersion h outputDirectory)
  = ([Invoke (Spec.driverVersionCommand h outputDirectory)], Resolved undefined)
  /\ absent undefined
  /\ JsString.split " " (JsString.trim output) = [JsString.trim output].
Proof.
  intros Hsettle Hne Hfree.
  rewrite getInstalledDriverVersion_run, Hsettle.
  unfold trimmedPieceOrNull. rewrite (truthy_str _ Hne).
  rewrite (split_spaceFree _ Hfree).
  repeat split. right. reflexivity.
Qed.

Lemma single_piece_output_is_absent_witness :
  settle (Sample.linuxWithDriver "114.0.5735.90")
         (Spec.driverVersionCommand (Sample.linuxWithDriver "114.0.5735.90") "/tmp/drivers")
  = Resolved (str "114.0.5735.90") /\
  run (Sample.linuxWithDriver "114.0.5735.90")
      (getInstalledDriverVersion (Sample.linuxWithDriver "114.0.5735.90") "/tmp/drivers")
  = ([Invoke (getCommandOutputOrNullIfMissing ["/tmp/drivers/operadriver"; "--version"])],
     Resolved undefined).
Proof.
  split; [reflexivity |].
  refine (proj1 (single_piece_output_is_absent (Sample.linuxWithDriver "114.0.5735.90")
                   "/tmp/drivers" "114.0.5735.90" eq_refl _ eq_refl)).
  discriminate.
Defined.

(** C3, as the code has it.  [getInstalledDriverVersion outputDirectory]
    runs one command, the driver under [outputDirectory] (with [.exe] on
    Windows) with the argument [--version].  A non-empty output is trimmed
    and cut at every space character, and the second piece is returned;
    when the trimmed output is made of tokens one space apart this is its
    second whitespace-delimited token, as for
    [operadriver 114.0.5735.90 (abcd1234)], which gives 114.0.5735.90.
    When the helper resolves to [null] (command missing or failed) or to
    the empty text, the result is [null]. *)
Theorem getInstalledDriverVersion_second_piece (h : Host) (outputDirectory : string) :
  trace h (getInstalledDriverVersion h outputDirectory)
  = [Invoke (Spec.driverVersionCommand h outputDirectory)]
  /\ (forall output,
      settle h (Spec.driverVersionCommand h outputDirectory) = Resolved (str output) ->
      output <> EmptyString ->
      result h (getInstalledDriverVersion h outputDirectory)
      = Resolved (index (JsString.split " " (JsString.trim output)) 1))
  /\ (forall lead tokens trail,
      settle h (Spec.driverVersionCommand h outputDirectory)
      = Resolved (str (lead ++ Spec.spaced tokens ++ trail)) ->
      Spec.blank lead -> Spec.blank trail ->
      Forall Spec.isToken tokens -> tokens <> [] ->
      exists v,
        result h (getInstalledDriverVersion h outputDirectory) = Resolved v
        /\ Spec.present v = nth_error tokens 1
        /\ Spec.present v = Spec.tokenOfTrimmed 1 (lead ++ Spec.spaced tokens ++ trail))
  /\ (settle h (Spec.driverVersionCommand h outputDirectory)
      = Resolved (str "operadriver 114.0.5735.90 (abcd1234)") ->
      result h (getInstalledDriverVersion h outputDirectory)
      = Resolved (str "114.0.5735.90"))
  /\ (forall v,
      settle h (Spec.driverVersionCommand h outputDirectory) = Resolved v ->
      truthy v = false ->
      result h (getInstalledDriverVersion h outputDirectory) = Resolved null).
Proof.
  unfold trace, result. rewrite getInstalledDriverVersion_run. cbn [fst snd].
  split; [reflexivity |]. split; [| split; [| split]].
  - intros output Hsettle Hne. rewrite Hsettle.
    unfold trimmedPieceOrNull. rewrite (truthy_str _ Hne). reflexivity.
  - intros lead tokens trail Hsettle Hlead Htrail Htokens Hne. rewrite Hsettle.
    destruct (trimmedPieceOrNull_spaced lead trail tokens 1 Hlead Htrail Htokens Hne)
      as [Hcode Hspec].
    eexists. split; [reflexivity |]. split; [exact Hcode |].
    rewrite Hcode, Hspec. reflexivity.
  - intros Hsettle. rewrite Hsettle. reflexivity.
  - intros v Hsettle Hfalse. rewrite Hsettle.
    unfold trimmedPieceOrNull. rewrite Hfalse. reflexivity.
Qed.

Lemma getInstalledDriverVersion_second_piece_witness :
  settle (Sample.linuxWithDriver "operadriver 114.0.5735.90 (abcd1234)")
         (Spec.driverVersionCommand
            (Sample.linuxWithDriver "operadriver 114.0.5735.90 (abcd1234)") "/tmp/drivers")
  = Resolved (str "operadriver 114.0.5735.90 (abcd1234)") /\
  result (Sample.linuxWithDriver "operadriver 114.0.5735.90 (abcd1234)")
         (getInstalledDriverVersion
            (Sample.linuxWithDriver "operadriver 114.0.5735.90 (abcd1234)") "/tmp/drivers")
  = Resolved (str "114.0.5735.90").
Proof.
  split; [reflexivity |].
  exact (proj1 (proj2 (proj2 (proj2
           (getInstalledDriverVersion_second_piece
              (Sample.linuxWithDriver "operadriver 114.0.5735.90 (abcd1234)")
              "/tmp/drivers")))) eq_refl).
Defined.

(** C3, as the specification words it, fails: for the output
    [operadriver  114.0.5735.90], with two spaces, the second
    whitespace-delimited token of the trimmed output is 114.0.5735.90 but
    the method returns the empty piece between the two spaces. *)
Lemma getInstalledDriverVersion_not_second_token :
  settle (Sample.linuxWithDriver "operadriver  114.0.5735.90")
         (Spec.driverVersionCommand
            (Sample.linuxWithDriver "operadriver  114.0.5735.90") "/tmp/drivers")
  = Resolved (str "operadriver  114.0.5735.90")
  /\ result (Sample.linuxWithDriver "operadriver  114.0.5735.90")
            (getInstalledDriverVersion
               (Sample.linuxWithDriver "operadriver  114.0.5735.90") "/tmp/drivers")
     = Resolved (str EmptyString)
  /\ Spec.tokenOfTrimmed 1 "operadriver  114.0.5735.90" = Some "114.0.5735.90"
  /\ ~ (forall (h : Host) (outputDirectory output : string),
          settle h (Spec.driverVersionCommand h outputDirectory) = Resolved (str output) ->
          output <> EmptyString ->
          exists v,
            result h (getInstalledDriverVersion h outputDirectory) = Resolved v
            /\ Spec.present v = Spec.tokenOfTrimmed 1 output).
Proof.
  repeat split.
  intros Hclaim.
  destruct (Hclaim (Sample.linuxWithDriver "operadriver  114.0.5735.90")
              "/tmp/drivers" "operadriver  114.0.5735.90" eq_refl)
    as (v & Hresult & Hpresent).
  - discriminate.
  - injection Hresult as <-. discriminate Hpresent.
Qed.


(* ================================================================== *)
(** ** getInstalledBrowserVersion on Linux *)
(* ================================================================== *)

(** The closing expression of the Linux branch keeps the trimmed output up
    to its first space. *)
Lemma trimmedPieceOrNull_first (output : string) :
  output <> EmptyString ->
  trimmedPieceOrNull (str output) 0
  = str (Spec.upToFirstSpace (JsString.trim output)).
Proof.
  intros Hne. unfold trimmedPieceOrNull.
  rewrite (truthy_str _ Hne). apply split_first_piece.
Qed.

Lemma finds_str (h : Host) (probe : call value) (v : value) :
  Spec.finds h probe v -> exists output, v = str output /\ output <> EmptyString.
Proof.
  intros [_ Htrue]. destruct v as [| | output]; try discriminate Htrue.
  exists output. split; [reflexivity |].
  simpl in Htrue. apply negb_true_iff, String.eqb_neq in Htrue. exact Htrue.
Qed.

(** C4, as the code has it.  On Linux, [getInstalledBrowserVersion] first
    runs [/snap/bin/opera --version].  When that prints a non-empty text
    no other command is run; when it resolves to [null] or to the empty
    text, [opera --version] is run next, through the PATH.  The text of
    the probe that answered is trimmed and cut at its first space
    character; when it is made of tokens one space apart, that is its
    first whitespace-delimited token.  When both probes find nothing the
    method resolves to [null]; it does not reject. *)
Theorem linux_snap_then_path (h : Host) :
  os_platform h = "linux" ->
  let snap := getCommandOutputOrNullIfMissing ["/snap/bin/opera"; "--version"] in
  let onPath := getCommandOutputOrNullIfMissing ["opera"; "--version"] in
  (forall output,
      Spec.finds h snap (str output) ->
      run h (getInstalledBrowserVersion h)
      = ([Invoke snap], Resolved (str (Spec.upToFirstSpace (JsString.trim output)))))
  /\ (forall output,
      Spec.findsNothing h snap ->
      Spec.finds h onPath (str output) ->
      run h (getInstalledBrowserVersion h)
      = ([Invoke snap; Invoke onPath],
         Resolved (str (Spec.upToFirstSpace (JsString.trim output)))))
  /\ (Spec.findsNothing h snap ->
      Spec.findsNothing h onPath ->
      run h (getInstalledBrowserVersion h)
      = ([Invoke snap; Invoke onPath], Resolved null))
  /\ (forall lead tokens trail,
      Spec.blank lead -> Spec.blank trail ->
      Forall Spec.isToken tokens -> tokens <> [] ->
      Some (Spec.upToFirstSpace (JsString.trim (lead ++ Spec.spaced tokens ++ trail)))
      = Spec.tokenOfTrimmed 0 (lead ++ Spec.spaced tokens ++ trail)).
Proof.
  intros Hlinux.
  assert (Hbody : getInstalledBrowserVersion h
                  = (version <- await getCommandOutputOrNullIfMissing
                                        ["/snap/bin/opera"; "--version"];;
                     if negb (truthy version) then
                       version <- await getCommandOutputOrNullIfMissing
                                          ["opera"; "--version"];;
                       Return (trimmedPieceOrNull version 0)
                     else Return (trimmedPieceOrNull version 0))).
  { unfold getInstalledBrowserVersion. rewrite Hlinux. reflexivity. }
  cbv zeta. rewrite Hbody. split; [| split; [| split]].
  - intros output Hfound.
    destruct (finds_str _ _ _ Hfound) as (o & Ho & Hne). injection Ho as <-.
    destruct Hfound as [Hsettle Htrue].
    rewrite (run_await_resolved h _ _ _ _ _ Hsettle), Htrue.
    rewrite (trimmedPieceOrNull_first _ Hne). reflexivity.
  - intros output (v & Hsnap & Hfalse) Hfound.
    destruct (finds_str _ _ _ Hfound) as (o & Ho & Hne). injection Ho as <-.
    destruct Hfound as [Hsettle Htrue].
    rewrite (run_await_resolved h _ _ _ _ _ Hsnap), Hfalse.
    cbn [negb]. rewrite (run_await_resolved h _ _ _ _ _ Hsettle).
    rewrite (trimmedPieceOrNull_first _ Hne). reflexivity.
  - intros (v & Hsnap & Hfalse) (w & Hpath & Hfalse').
    rewrite (run_await_resolved h _ _ _ _ _ Hsnap), Hfalse.
    cbn [negb]. rewrite (run_await_resolved h _ _ _ _ _ Hpath).
    unfold trimmedPieceOrNull. rewrite Hfalse'. reflexivity.
  - intros lead tokens trail Hlead Htrail Htokens Hne.
    destruct (trimmedPieceOrNull_spaced lead trail tokens 0 Hlead Htrail Htokens Hne)
      as [Hcode Hspec].
    rewrite Hspec, <- Hcode.
    rewrite trimmedPieceOrNull_first; [reflexivity |].
    intros Hempty. apply append_empty in Hempty as [_ Hrest].
    apply append_empty in Hrest as [Hbody' _].
    exact (spaced_not_empty tokens Htokens Hne Hbody').
Qed.

Lemma linux_snap_then_path_witness :
  os_platform (Sample.linuxWithPathOpera "114.0.5282.102 stable") = "linux" /\
  run (Sample.linuxWithPathOpera "114.0.5282.102 stable")
      (getInstalledBrowserVersion (Sample.linuxWithPathOpera "114.0.5282.102 stable"))
  = ([Invoke (getCommandOutputOrNullIfMissing ["/snap/bin/opera"; "--version"]);
      Invoke (getCommandOutputOrNullIfMissing ["opera"; "--version"])],
     Resolved (str "114.0.5282.102")).
Proof.
  split; [reflexivity |].
  refine (proj1 (proj2 (linux_snap_then_path
            (Sample.linuxWithPathOpera "114.0.5282.102 stable") eq_refl))
            "114.0.5282.102 stable" _ _).
  - exists null. split; reflexivity.
  - split; reflexivity.
Defined.

(** C4, as the specification words it, fails in its last part: when the
    Snap build prints 114.0.5735.90, a line feed and [stable], the first
    whitespace-delimited token of the trimmed output is 114.0.5735.90 but
    the method returns both lines, there being no space to cut at. *)
Lemma linux_version_not_first_token :
  Spec.finds (Sample.linuxWithSnapOpera ("114.0.5735.90" ++ String Sample.LF "stable"))
    (getCommandOutputOrNullIfMissing ["/snap/bin/opera"; "--version"])
    (str ("114.0.5735.90" ++ String Sample.LF "stable"))
  /\ run (Sample.linuxWithSnapOpera ("114.0.5735.90" ++ String Sample.LF "stable"))
         (getInstalledBrowserVersion
            (Sample.linuxWithSnapOpera ("114.0.5735.90" ++ String Sample.LF "stable")))
     = ([Invoke (getCommandOutputOrNullIfMissing ["/snap/bin/opera"; "--version"])],
        Resolved (str ("114.0.5735.90" ++ String Sample.LF "stable")))
  /\ Spec.tokenOfTrimmed 0 ("114.0.5735.90" ++ String Sample.LF "stable")
     = Some "114.0.5735.90"
  /\ ~ (forall (h : Host) (output : string),
          os_platform h = "linux" ->
          Spec.finds h (getCommandOutputOrNullIfMissing ["/snap/bin/opera"; "--version"])
            (str output) ->
          exists v,
            result h (getInstalledBrowserVersion h) = Resolved v
            /\ Spec.present v = Spec.tokenOfTrimmed 0 output).
Proof.
  repeat split.
  intros Hclaim.
  destruct (Hclaim (Sample.linuxWithSnapOpera ("114.0.5735.90" ++ String Sample.LF "stable"))
              ("114.0.5735.90" ++ String Sample.LF "stable") eq_refl)
    as (v & Hresult & Hpresent).
  - split; reflexivity.
  - injection Hresult as <-. discriminate Hpresent.
Qed.


(* ================================================================== *)
(** ** What the bodies can and cannot do *)
(* ================================================================== *)

Section Shapes.

Variable h : Host.

(** The calls a run issues are calls of the body. *)
Lemma callsOnly_trace (A : Type) (ok : event -> bool) (p : prog A) :
  Shape.callsOnly ok p -> forallb ok (trace h p) = true.
Proof.
  unfold trace. intros Hp.
  induction Hp as [a | e | R c k Hc _ IH]; simpl; try reflexivity.
  destruct (settle h c) as [r | e].
  - specialize (IH r). destruct (run h (k r)) as [t o]. simpl in *.
    rewrite Hc, IH. reflexivity.
  - simpl. rewrite Hc. reflexivity.
Qed.


Lemma forPossiblePaths_callsOnly (ok : event -> bool) (paths : list string)
    (afterLoop : prog value) :
  (forall p, ok (Invoke (getWindowsExeVersion p)) = true) ->
  Shape.callsOnly ok afterLoop ->
  Shape.callsOnly ok (forPossiblePaths paths afterLoop).
Proof.
  intros Hok Hafter. induction paths as [| p paths IH]; simpl.
  - exact Hafter.
  - constructor; [apply Hok |].
    intros v. destruct (truthy v); [constructor | exact IH].
Qed.

Lemma forPossiblePaths_throwFree (paths : list string) (afterLoop : prog value) :
  Shape.throwFree afterLoop ->
  Shape.throwFree (forPossiblePaths paths afterLoop).
Proof.
  intros Hafter. induction paths as [| p paths IH]; simpl.
  - exact Hafter.
  - constructor. intros v. destruct (truthy v); [constructor | exact IH].
Qed.

Lemma forPossiblePaths_length (paths : list string) (afterLoop : prog value) :
  length (trace h (forPossiblePaths paths afterLoop))
  <= length paths + length (trace h afterLoop).
Proof.
  unfold trace. induction paths as [| p paths IH]; simpl.
  - lia.
  - destruct (settle h (getWindowsExeVersion p)) as [v | e]; simpl; [| lia].
    destruct (truthy v); simpl; [lia |].
    destruct (run h (forPossiblePaths paths afterLoop)) as [t o]. simpl in *. lia.
Qed.

Lemma getInstalledBrowserVersion_callsOnly :
  Shape.callsOnly Shape.readOnly (getInstalledBrowserVersion h).
Proof.
  unfold getInstalledBrowserVersion.
  destruct (os_platform h =? "darwin").
  { constructor; [reflexivity |]. intros v.
    destruct (truthy v); repeat (constructor; try reflexivity; intros). }
  destruct (os_platform h =? "linux").
  { constructor; [reflexivity |]. intros v.
    destruct (negb (truthy v)); repeat (constructor; try reflexivity; intros). }
  destruct (os_platform h =? "win32").
  { apply forPossiblePaths_callsOnly; [reflexivity |].
    repeat (constructor; try reflexivity; intros). }
  constructor.
Qed.

Lemma getInstalledDriverVersion_callsOnly (outputDirectory : string) :
  Shape.callsOnly Shape.readOnly (getInstalledDriverVersion h outputDirectory).
Proof.
  unfold getInstalledDriverVersion.
  constructor; [reflexivity |]. intros v. constructor.
Qed.

End Shapes.

(** X1.  On every host, supported or not, the two version getters are
    read-only: none of their calls goes to the network or writes a file.
    [getInstalledBrowserVersion] makes at most four calls and
    [getInstalledDriverVersion] exactly one. *)
Theorem version_getters_are_read_only (h : Host) (outputDirectory : string) :
  forallb Shape.readOnly (trace h (getInstalledBrowserVersion h)) = true
  /\ forallb Shape.readOnly (trace h (getInstalledDriverVersion h outputDirectory)) = true
  /\ length (trace h (getInstalledBrowserVersion h)) <= 4
  /\ length (trace h (getInstalledDriverVersion h outputDirectory)) = 1.
Proof.
  split; [| split; [| split]].
  - apply callsOnly_trace, getInstalledBrowserVersion_callsOnly.
  - apply callsOnly_trace, getInstalledDriverVersion_callsOnly.
  - unfold getInstalledBrowserVersion.
    destruct (os_platform h =? "darwin").
    { unfold trace. simpl.
      destruct (settle h (getMacAppVersion "Opera")) as [v | e]; simpl; [| lia].
      destruct (truthy v); simpl; [lia |].
      destruct (settle h (getMacAppVersion "Opera Stable")); simpl; lia. }
    destruct (os_platform h =? "linux").
    { unfold trace. simpl.
      destruct (settle h (getCommandOutputOrNullIfMissing ["/snap/bin/opera"; "--version"]))
        as [v | e]; simpl; [| lia].
      destruct (truthy v); simpl; [lia |].
      destruct (settle h (getCommandOutputOrNullIfMissing ["opera"; "--version"]));
        simpl; lia. }
    destruct (os_platform h =? "win32").
    { pose proof (forPossiblePaths_length h (possiblePaths h)
                    (version <- await getWindowsExeVersion "opera.exe";;
                     Return version)) as Hlen.
      assert (Hafter : length (trace h (version <- await getWindowsExeVersion "opera.exe";;
                                        Return version)) = 1).
      { unfold trace. rewrite (run_await_return h). reflexivity. }
      rewrite Hafter in Hlen. change (length (possiblePaths h)) with 3 in Hlen.
      lia. }
    unfold trace. simpl. lia.
  - unfold trace. rewrite getInstalledDriverVersion_run. reflexivity.
Qed.

(** The probes of the loop are asked about an initial part of the paths,
    then about what the code after the loop asks. *)
Lemma forPossiblePaths_subjects (h : Host) (paths : list string)
    (afterLoop : prog value) :
  exists rest,
    (map Shape.subject (trace h (forPossiblePaths paths afterLoop)) ++ rest
     = paths ++ map Shape.subject (trace h afterLoop))%list.
Proof.
  unfold trace. induction paths as [| p paths (rest & IH)]; simpl.
  - exists []. apply app_nil_r.
  - destruct (settle h (getWindowsExeVersion p)) as [v | e]; simpl.
    + destruct (truthy v); simpl.
      * eexists. reflexivity.
      * destruct (run h (forPossiblePaths paths afterLoop)) as [t o]. simpl in *.
        exists rest. rewrite IH. reflexivity.
    + eexists. reflexivity.
Qed.

(** X2.  On every host, [getInstalledBrowserVersion] never asks the same
    question twice: the calls of one run are pairwise distinct, whatever
    the user's name is. *)
Theorem browser_probes_never_repeat (h : Host) :
  NoDup (trace h (getInstalledBrowserVersion h)).
Proof.
  apply (NoDup_map_inv Shape.subject).
  unfold getInstalledBrowserVersion.
  destruct (os_platform h =? "darwin").
  { unfold trace. simpl.
    destruct (settle h (getMacAppVersion "Opera")) as [v | e]; simpl;
      [| distinct_strings].
    destruct (truthy v); simpl; [distinct_strings |].
    destruct (settle h (getMacAppVersion "Opera Stable")); simpl; distinct_strings. }
  destruct (os_platform h =? "linux").
  { unfold trace. simpl.
    destruct (settle h (getCommandOutputOrNullIfMissing ["/snap/bin/opera"; "--version"]))
      as [v | e]; simpl; [| distinct_strings].
    destruct (truthy v); simpl; [distinct_strings |].
    destruct (settle h (getCommandOutputOrNullIfMissing ["opera"; "--version"]));
      simpl; distinct_strings. }
  destruct (os_platform h =? "win32").
  { destruct (forPossiblePaths_subjects h (possiblePaths h)
                (version <- await getWindowsExeVersion "opera.exe";;
                 Return version)) as (rest & Hrest).
    apply (NoDup_app_remove_r _ rest). rewrite Hrest.
    unfold trace. rewrite (run_await_return h). unfold possiblePaths.
    distinct_strings. }
  unfold trace. simpl. apply NoDup_nil.
Qed.

(* ================================================================== *)
(** ** Errors *)
(* ================================================================== *)







(* ================================================================== *)
(** ** How the methods fit together *)
(* ================================================================== *)

Lemma append_empty_r (s : string) : s ++ EmptyString = s.
Proof.
  induction s as [| c s IH]; simpl; [reflexivity | rewrite IH; reflexivity].
Qed.

(** On a supported platform [install] is its one [installBinary] call. *)
Lemma install_selects_platform_aux (h : Host) (o : Spec.OS)
    (driverVersion outputDirectory : string) :
  os_platform h = Spec.platformOf o ->
  platformAndBinaryName h
  = Some (Spec.platformTag o, "operadriver" ++ Spec.binarySuffix o)
  /\ run h (install h driverVersion outputDirectory)
     = ([Invoke (installBinary
           ("https://github.com/operasoftware/operachromiumdriver/releases/download/v."
            ++ driverVersion ++ "/operadriver_" ++ Spec.platformTag o ++ ".zip")
           ("operadriver_" ++ Spec.platformTag o ++ "/operadriver" ++ Spec.binarySuffix o)
           ("operadriver" ++ Spec.binarySuffix o) outputDirectory true)],
        settle h (installBinary
           ("https://github.com/operasoftware/operachromiumdriver/releases/download/v."
            ++ driverVersion ++ "/operadriver_" ++ Spec.platformTag o ++ ".zip")
           ("operadriver_" ++ Spec.platformTag o ++ "/operadriver" ++ Spec.binarySuffix o)
           ("operadriver" ++ Spec.binarySuffix o) outputDirectory true)).
Proof.
  intros Hos.
  assert (Hsel : platformAndBinaryName h
                 = Some (Spec.platformTag o, "operadriver" ++ Spec.binarySuffix o)).
  { unfold platformAndBinaryName. rewrite Hos. destruct o; reflexivity. }
  split; [exact Hsel |].
  unfold install. rewrite Hsel, Hos.
  destruct o; cbn [String.eqb Ascii.eqb Bool.eqb andb Spec.platformOf];
    apply (run_await_return h).
Qed.

(** X5.  On Linux, macOS and Windows, [install] and
    [getInstalledDriverVersion] agree on the name of the binary: with one
    and the same suffix ([.exe] on Windows, none elsewhere), [install]
    asks for the archive entry ending in [/operadriver] plus the suffix to
    be written as [operadriver] plus the suffix in the output directory,
    and the getter runs [path.join(outputDirectory, operadriver)] plus
    the suffix. *)
Theorem install_and_driver_getter_agree (h : Host)
    (driverVersion outputDirectory : string) :
  Spec.supported (os_platform h) ->
  exists archiveUrl folder suffix,
    trace h (install h driverVersion outputDirectory)
    = [Invoke (installBinary archiveUrl (folder ++ "/operadriver" ++ suffix)
                 ("operadriver" ++ suffix) outputDirectory true)]
    /\ trace h (getInstalledDriverVersion h outputDirectory)
       = [Invoke (getCommandOutputOrNullIfMissing
                    [path_join h outputDirectory "operadriver" ++ suffix; "--version"])]
    /\ (suffix = ".exe" <-> os_platform h = "win32").
Proof.
  intros [o Ho].
  destruct (install_selects_platform_aux h o driverVersion outputDirectory Ho) as [_ Hrun].
  exists ("https://github.com/operasoftware/operachromiumdriver/releases/download/v."
          ++ driverVersion ++ "/operadriver_" ++ Spec.platformTag o ++ ".zip"),
    ("operadriver_" ++ Spec.platformTag o), (Spec.binarySuffix o).
  split; [| split].
  - unfold trace. rewrite Hrun. destruct o; reflexivity.
  - unfold trace. rewrite getInstalledDriverVersion_run.
    unfold Spec.driverVersionCommand. rewrite Ho.
    destruct o; simpl; rewrite ?append_empty_r; reflexivity.
  - rewrite Ho. destruct o; simpl; split; intros H; try discriminate H; reflexivity.
Qed.

Lemma install_and_driver_getter_agree_witness :
  Spec.supported (os_platform (Sample.windows "opera.exe" "114.0.5282.102")) /\
  exists archiveUrl folder suffix,
    trace (Sample.windows "opera.exe" "114.0.5282.102")
          (install (Sample.windows "opera.exe" "114.0.5282.102") "114.0.5735.90" "C:\drivers")
    = [Invoke (installBinary archiveUrl (folder ++ "/operadriver" ++ suffix)
                 ("operadriver" ++ suffix) "C:\drivers" true)]
    /\ trace (Sample.windows "opera.exe" "114.0.5282.102")
             (getInstalledDriverVersion (Sample.windows "opera.exe" "114.0.5282.102")
                "C:\drivers")
       = [Invoke (getCommandOutputOrNullIfMissing
                    [("C:\drivers" ++ "\" ++ "operadriver") ++ suffix; "--version"])]
    /\ (suffix = ".exe" <-> "win32" = "win32").
Proof.
  assert (Hsupported : Spec.supported
                         (os_platform (Sample.windows "opera.exe" "114.0.5282.102"))).
  { exists Spec.Windows. reflexivity. }
  split; [exact Hsupported |].
  exact (install_and_driver_getter_agree (Sample.windows "opera.exe" "114.0.5282.102")
           "114.0.5735.90" "C:\drivers" Hsupported).
Defined.

(** Taking the prefix off and putting [v.] back gives the tag again
    exactly for the tags that start with [v.]. *)
Lemma tagPrefix_round_trip (tag : string) :
  "v." ++ JsString.replace tagPrefix EmptyString tag = tag
  <-> exists version, tag = "v." ++ version.
Proof.
  split.
  - intros H. eexists. symmetry. exact H.
  - intros [version ->]. reflexivity.
Qed.

(** X6.  Installing the version that [getBestDriverVersion] resolved to
    downloads from the release named [v.] plus that version.  That name is
    the tag the query returned exactly when the tag starts with [v.]; for
    a tag such as v114.0.5735.90, without the dot, the release asked for
    is v.114.0.5735.90. *)
Theorem install_asks_for_dotted_release (h : Host) (o : Spec.OS)
    (browserVersion : value) (tag outputDirectory : string) :
  os_platform h = Spec.platformOf o ->
  settle h (fetchLatestGitHubTag "operasoftware/operachromiumdriver") = Resolved tag ->
  exists version,
    result h (getBestDriverVersion browserVersion) = Resolved version
    /\ trace h (install h version outputDirectory)
       = [Invoke (installBinary
            ("https://github.com/operasoftware/operachromiumdriver/releases/download/"
             ++ ("v." ++ version) ++ "/operadriver_" ++ Spec.platformTag o ++ ".zip")
            ("operadriver_" ++ Spec.platformTag o ++ "/operadriver" ++ Spec.binarySuffix o)
            ("operadriver" ++ Spec.binarySuffix o) outputDirectory true)]
    /\ ("v." ++ version = tag <-> exists rest, tag = "v." ++ rest)
    /\ (forall rest, tag = "v" ++ rest -> (forall more, rest <> "." ++ more) ->
        "v." ++ version = "v." ++ rest).
Proof.
  intros Ho Htag.
  exists (JsString.replace tagPrefix EmptyString tag).
  split; [| split; [| split]].
  - unfold result, getBestDriverVersion.
    rewrite (run_await_resolved h _ _ _ _ _ Htag). reflexivity.
  - unfold trace.
    rewrite (proj2 (install_selects_platform_aux h o _ outputDirectory Ho)).
    reflexivity.
  - apply tagPrefix_round_trip.
  - intros rest -> Hnodot.
    rewrite (stripped_functional _ _ rest (replace_tagPrefix_stripped ("v" ++ rest))
               (Spec.stripped_v Hnodot)).
    reflexivity.
Qed.

Lemma install_asks_for_dotted_release_witness :
  os_platform (Sample.linuxWithSnapOpera "114.0.5282.102") = Spec.platformOf Spec.Linux /\
  settle (Sample.linuxWithSnapOpera "114.0.5282.102")
         (fetchLatestGitHubTag "operasoftware/operachromiumdriver")
  = Resolved "v114.0.5735.90" /\
  exists version,
    result (Sample.linuxWithSnapOpera "114.0.5282.102")
           (getBestDriverVersion (str "114.0.5282.102")) = Resolved version
    /\ "v." ++ version = "v.114.0.5735.90".
Proof.
  split; [reflexivity | split; [reflexivity |]].
  destruct (install_asks_for_dotted_release (Sample.linuxWithSnapOpera "114.0.5282.102")
              Spec.Linux (str "114.0.5282.102") "v114.0.5735.90" "/tmp/drivers"
              eq_refl eq_refl) as (version & Hresult & _ & _ & Hplain).
  exists version. split; [exact Hresult |].
  apply (Hplain "114.0.5735.90"); [reflexivity |].
  intros more H. discriminate H.
Defined.

(* ================================================================== *)
(** ** Parsing a command's output *)
(* ================================================================== *)

Section Parsing.

Import JsString.

Lemma trimStart_blank (s : string) : Spec.blank s -> trimStart s = EmptyString.
Proof.
  unfold Spec.blank. induction s as [| c s IH]; simpl; intros H.
  - reflexivity.
  - apply andb_true_iff in H as [Hc Hs]. rewrite Hc. apply IH, Hs.
Qed.

Lemma trim_app_blank (s trail : string) :
  Spec.blank trail -> trim (s ++ trail) = trim s.
Proof.
  intros Htrail. unfold trim. induction s as [| c s IH]; simpl.
  - rewrite (trimStart_blank _ Htrail). reflexivity.
  - destruct (isWhiteSpace c); [exact IH |].
    apply (trimEnd_app_blank (String c s)), Htrail.
Qed.

(** White space around a text does not change its trimmed form. *)
Lemma trim_padded (lead s trail : string) :
  Spec.blank lead -> Spec.blank trail -> trim (lead ++ s ++ trail) = trim s.
Proof.
  intros Hlead Htrail.
  transitivity (trim (s ++ trail)); [| apply trim_app_blank, Htrail].
  unfold trim. rewrite trimStart_blank_app by exact Hlead. reflexivity.
Qed.

Lemma trim_blank (s : string) : Spec.blank s -> trim s = EmptyString.
Proof.
  intros Hs. unfold trim. rewrite (trimStart_blank _ Hs). reflexivity.
Qed.

(** No piece of a split holds the separator. *)
Lemma split_pieces_spaceFree (s : string) :
  Forall Spec.spaceFree (split " " s).
Proof.
  unfold Spec.spaceFree. induction s as [| c s IH]; simpl.
  - repeat constructor.
  - destruct (Ascii.eqb c " ") eqn:Hc.
    + constructor; [reflexivity | exact IH].
    + destruct (split " " s) as [| piece pieces].
      * repeat constructor. simpl. rewrite Hc. reflexivity.
      * inversion IH as [| ? ? Hpiece Hpieces]; subst.
        constructor; [| exact Hpieces]. simpl. rewrite Hc, Hpiece. reflexivity.
Qed.

Lemma trimmedPieceOrNull_spaceFree (v : value) (i : nat) (s : string) :
  trimmedPieceOrNull v i = str s -> Spec.spaceFree s.
Proof.
  unfold trimmedPieceOrNull, index. intros H.
  destruct (truthy v); [| discriminate H].
  destruct v as [| | output]; try discriminate H.
  destruct (nth_error (split " " (trim output)) i) as [piece |] eqn:Hnth;
    [| discriminate H].
  injection H as <-.
  apply nth_error_In in Hnth.
  exact (proj1 (Forall_forall _ _) (split_pieces_spaceFree (trim output)) _ Hnth).
Qed.

End Parsing.

(** X7.  White space around the driver's answer does not matter: a
    leading or trailing run of blanks, tabs or line ends, such as the line
    end a command prints last, gives the same result as the answer
    without it. *)
Theorem padding_of_driver_output_is_ignored (h : Host)
    (outputDirectory lead output trail : string) :
  Spec.blank lead -> Spec.blank trail -> output <> EmptyString ->
  settle h (Spec.driverVersionCommand h outputDirectory)
  = Resolved (str (lead ++ output ++ trail)) ->
  result h (getInstalledDriverVersion h outputDirectory)
  = Resolved (trimmedPieceOrNull (str output) 1).
Proof.
  intros Hlead Htrail Hne Hsettle.
  unfold result. rewrite getInstalledDriverVersion_run, Hsettle. cbn [snd].
  unfold trimmedPieceOrNull.
  rewrite (truthy_str _ Hne), (trim_padded _ _ _ Hlead Htrail).
  rewrite truthy_str; [reflexivity |].
  intros Hempty. apply append_empty in Hempty as [_ Hrest].
  apply append_empty in Hrest as [Hout _]. exact (Hne Hout).
Qed.

Lemma padding_of_driver_output_is_ignored_witness :
  result (Sample.linuxWithDriver ("OperaDriver 114.0.5735.90 (abcd1234)"
                                   ++ String Sample.LF EmptyString))
         (getInstalledDriverVersion
            (Sample.linuxWithDriver ("OperaDriver 114.0.5735.90 (abcd1234)"
                                     ++ String Sample.LF EmptyString))
            "/tmp/drivers")
  = Resolved (str "114.0.5735.90").
Proof.
  refine (padding_of_driver_output_is_ignored
            (Sample.linuxWithDriver ("OperaDriver 114.0.5735.90 (abcd1234)"
                                     ++ String Sample.LF EmptyString))
            "/tmp/drivers" EmptyString "OperaDriver 114.0.5735.90 (abcd1234)"
            (String Sample.LF EmptyString) eq_refl eq_refl _ eq_refl).
  discriminate.
Defined.

(** X8.  On Linux a Snap build that prints white space only (a lone line
    end, say) counts as found: [opera] on the PATH is not tried, and the
    version returned is the empty string, not [null]. *)
Theorem blank_snap_output_gives_empty_version (h : Host) (output : string) :
  os_platform h = "linux" ->
  Spec.blank output -> output <> EmptyString ->
  settle h (getCommandOutputOrNullIfMissing ["/snap/bin/opera"; "--version"])
  = Resolved (str output) ->
  run h (getInstalledBrowserVersion h)
  = ([Invoke (getCommandOutputOrNullIfMissing ["/snap/bin/opera"; "--version"])],
     Resolved (str EmptyString)).
Proof.
  intros Hlinux Hblank Hne Hsettle.
  unfold getInstalledBrowserVersion. rewrite Hlinux.
  cbn [String.eqb Ascii.eqb Bool.eqb andb].
  rewrite (run_await_resolved h _ _ _ _ _ Hsettle), (truthy_str _ Hne).
  cbn [negb run fst snd].
  unfold trimmedPieceOrNull. rewrite (truthy_str _ Hne), (trim_blank _ Hblank).
  reflexivity.
Qed.

Lemma blank_snap_output_gives_empty_version_witness :
  run (Sample.linuxWithSnapOpera (String Sample.LF EmptyString))
      (getInstalledBrowserVersion (Sample.linuxWithSnapOpera (String Sample.LF EmptyString)))
  = ([Invoke (getCommandOutputOrNullIfMissing ["/snap/bin/opera"; "--version"])],
     Resolved (str EmptyString)).
Proof.
  refine (blank_snap_output_gives_empty_version
            (Sample.linuxWithSnapOpera (String Sample.LF EmptyString))
            (String Sample.LF EmptyString) eq_refl eq_refl _ eq_refl).
  discriminate.
Defined.

(** X9.  A version parsed from a command's output holds no space
    character: whatever the commands print, a string returned by
    [getInstalledDriverVersion], or by [getInstalledBrowserVersion] on
    Linux, is free of spaces. *)
Theorem parsed_versions_have_no_space (h : Host) (outputDirectory version : string) :
  (result h (getInstalledDriverVersion h outputDirectory) = Resolved (str version) ->
   Spec.spaceFree version)
  /\ (os_platform h = "linux" ->
      result h (getInstalledBrowserVersion h) = Resolved (str version) ->
      Spec.spaceFree version).
Proof.
  split.
  - unfold result. rewrite getInstalledDriverVersion_run. cbn [snd].
    destruct (settle h (Spec.driverVersionCommand h outputDirectory)) as [v | e];
      intros H; [| discriminate H].
    injection H as H. exact (trimmedPieceOrNull_spaceFree _ _ _ H).
  - intros Hlinux. unfold result, getInstalledBrowserVersion. rewrite Hlinux.
    cbn [String.eqb Ascii.eqb Bool.eqb andb]. simpl.
    destruct (settle h (getCommandOutputOrNullIfMissing ["/snap/bin/opera"; "--version"]))
      as [v | e]; [| intros H; discriminate H].
    destruct (truthy v); simpl.
    + intros H. injection H as H. exact (trimmedPieceOrNull_spaceFree _ _ _ H).
    + destruct (settle h (getCommandOutputOrNullIfMissing ["opera"; "--version"]))
        as [w | e]; simpl; intros H; [| discriminate H].
      injection H as H. exact (trimmedPieceOrNull_spaceFree _ _ _ H).
Qed.

Lemma parsed_versions_have_no_space_witness :
  os_platform (Sample.linuxWithPathOpera "114.0.5282.102 stable") = "linux" /\
  result (Sample.linuxWithPathOpera "114.0.5282.102 stable")
         (getInstalledBrowserVersion (Sample.linuxWithPathOpera "114.0.5282.102 stable"))
  = Resolved (str "114.0.5282.102") /\
  Spec.spaceFree "114.0.5282.102".
Proof.
  split; [reflexivity | split; [reflexivity |]].
  exact (proj2 (parsed_versions_have_no_space
                  (Sample.linuxWithPathOpera "114.0.5282.102 stable")
                  "/tmp/drivers" "114.0.5282.102")
           eq_refl eq_refl).
Defined.

(* ================================================================== *)
(** ** Archive URLs *)
(* ================================================================== *)

Lemma length_append (a b : string) :
  String.length (a ++ b) = String.length a + String.length b.
Proof.
  induction a as [| c a IH]; simpl; [reflexivity | rewrite IH; reflexivity].
Qed.

Lemma append_cancel_r (s x y : string) : x ++ s = y ++ s -> x = y.
Proof.
  revert y. induction x as [| c x IH]; intros [| d y] H; simpl in H.
  - reflexivity.
  - exfalso. apply (f_equal String.length) in H. simpl in H.
    rewrite length_append in H. lia.
  - exfalso. apply (f_equal String.length) in H. simpl in H.
    rewrite length_append in H. lia.
  - injection H as -> H. rewrite (IH y H). reflexivity.
Qed.

(** X10.  On a supported platform the archive URL determines the driver
    version: two calls of [install] that download the same archive were
    given the same version. *)
Theorem archive_url_determines_version (h : Host)
    (version1 version2 directory1 directory2 : string) :
  Spec.supported (os_platform h) ->
  map Shape.archiveOf (trace h (install h version1 directory1))
  = map Shape.archiveOf (trace h (install h version2 directory2)) ->
  version1 = version2.
Proof.
  intros [o Ho]. unfold trace.
  rewrite (proj2 (install_selects_platform_aux h o version1 directory1 Ho)).
  rewrite (proj2 (install_selects_platform_aux h o version2 directory2 Ho)).
  cbn [fst map Shape.archiveOf]. intros H. injection H as H.
  exact (append_cancel_r _ _ _ H).
Qed.

Lemma archive_url_determines_version_witness :
  Spec.supported (os_platform Sample.bareLinux) /\ "114.0.5735.90" = "114.0.5735.90".
Proof.
  assert (Hsupported : Spec.supported (os_platform Sample.bareLinux)).
  { exists Spec.Linux. reflexivity. }
  split; [exact Hsupported |].
  exact (archive_url_determines_version Sample.bareLinux "114.0.5735.90" "114.0.5735.90"
           "/tmp/drivers" "/opt/drivers" Hsupported eq_refl).
Defined.

(* ================================================================== *)
(** ** Absent results *)
(* ================================================================== *)

(** A split that has no second piece had no separator to cut at. *)
Lemma split_single_spaceFree (s : string) :
  nth_error (JsString.split " " s) 1 = None -> Spec.spaceFree s.
Proof.
  unfold Spec.spaceFree. induction s as [| c s IH]; simpl; intros H.
  - reflexivity.
  - destruct (Ascii.eqb c " ").
    + simpl in H. destruct s; simpl in H; [discriminate H |].
      destruct (Ascii.eqb a " "); [discriminate H |].
      destruct (JsString.split " " s); discriminate H.
    + destruct (JsString.split " " s) as [| piece pieces] eqn:Hsplit.
      * destruct s as [| d s']; simpl in Hsplit; [discriminate Hsplit |].
        destruct (Ascii.eqb d " "); [discriminate Hsplit |].
        destruct (JsString.split " " s'); discriminate Hsplit.
      * simpl in H. simpl. apply IH. exact H.
Qed.

Lemma truthy_inv (v : value) :
  truthy v = true -> exists s, v = str s /\ s <> EmptyString.
Proof.
  destruct v as [| | s]; simpl; intros H; try discriminate H.
  exists s. split; [reflexivity |].
  apply negb_true_iff, String.eqb_neq in H. exact H.
Qed.

(** X11.  The two absent results of [getInstalledDriverVersion] tell two
    situations apart.  It resolves to [undefined] exactly when the command
    printed a non-empty text whose trimmed form has no space, and to
    [null] exactly when the helper resolved to [null], [undefined] or the
    empty text. *)
Theorem driver_version_absent_cases (h : Host) (outputDirectory : string) :
  (result h (getInstalledDriverVersion h outputDirectory) = Resolved undefined
   <-> exists output,
         settle h (Spec.driverVersionCommand h outputDirectory) = Resolved (str output)
         /\ output <> EmptyString
         /\ Spec.spaceFree (JsString.trim output))
  /\ (result h (getInstalledDriverVersion h outputDirectory) = Resolved null
      <-> Spec.findsNothing h (Spec.driverVersionCommand h outputDirectory)).
Proof.
  unfold result, Spec.findsNothing. rewrite getInstalledDriverVersion_run. cbn [snd].
  destruct (settle h (Spec.driverVersionCommand h outputDirectory)) as [v | e].
  - unfold trimmedPieceOrNull, index.
    destruct (truthy v) eqn:Htruthy.
    + destruct (truthy_inv v Htruthy) as (output & -> & Hne).
      destruct (nth_error (JsString.split " " (JsString.trim output)) 1)
        as [piece |] eqn:Hnth.
      * split; split.
        -- intros H. discriminate H.
        -- intros (o & Ho & _ & Hfree). injection Ho as <-.
           rewrite (split_spaceFree _ Hfree) in Hnth. discriminate Hnth.
        -- intros H. discriminate H.
        -- intros (w & Hw & Hfalse). injection Hw as <-.
           rewrite Htruthy in Hfalse. discriminate Hfalse.
      * split; split.
        -- intros _. exists output. repeat split; try assumption.
           apply split_single_spaceFree, Hnth.
        -- reflexivity.
        -- intros H. discriminate H.
        -- intros (w & Hw & Hfalse). injection Hw as <-.
           rewrite Htruthy in Hfalse. discriminate Hfalse.
    + split; split.
      * intros H. discriminate H.
      * intros (o & Ho & Hne & _). injection Ho as ->.
        rewrite (truthy_str _ Hne) in Htruthy. discriminate Htruthy.
      * intros _. exists v. split; [reflexivity | exact Htruthy].
      * reflexivity.
  - split; split; try (intros H; discriminate H).
    + intros (o & Ho & _). discriminate Ho.
    + intros (w & Hw & _). discriminate Hw.
Qed.

Lemma driver_version_absent_cases_witness :
  Spec.findsNothing Sample.bareLinux (Spec.driverVersionCommand Sample.bareLinux "/tmp/drivers")
  /\ result Sample.bareLinux (getInstalledDriverVersion Sample.bareLinux "/tmp/drivers")
     = Resolved null.
Proof.
  assert (Hnothing : Spec.findsNothing Sample.bareLinux
                       (Spec.driverVersionCommand Sample.bareLinux "/tmp/drivers")).
  { exists null. split; reflexivity. }
  split; [exact Hnothing |].
  exact (proj2 (proj2 (driver_version_absent_cases Sample.bareLinux "/tmp/drivers"))
           Hnothing).
Defined.

(** X12.  On Linux the browser version is never [undefined], and it is
    [null] exactly when neither [/snap/bin/opera] nor [opera] on the PATH
    gave a non-empty answer. *)
Theorem linux_browser_version_null_cases (h : Host) (v : value) :
  os_platform h = "linux" ->
  result h (getInstalledBrowserVersion h) = Resolved v ->
  v <> undefined
  /\ (v = null
      <-> Spec.findsNothing h (getCommandOutputOrNullIfMissing ["/snap/bin/opera"; "--version"])
          /\ Spec.findsNothing h (getCommandOutputOrNullIfMissing ["opera"; "--version"])).
Proof.
  intros Hlinux. unfold result, getInstalledBrowserVersion, Spec.findsNothing.
  rewrite Hlinux. cbn [String.eqb Ascii.eqb Bool.eqb andb]. simpl.
  destruct (settle h (getCommandOutputOrNullIfMissing ["/snap/bin/opera"; "--version"]))
    as [a | e]; [| intros H; discriminate H].
  destruct (truthy a) eqn:Ha; simpl.
  - destruct (truthy_inv a Ha) as (output & -> & Hne).
    rewrite (trimmedPieceOrNull_first _ Hne). intros H. injection H as <-.
    split; [discriminate |]. split; [intros H; discriminate H |].
    intros [(w & Hw & Hfalse) _]. injection Hw as <-.
    rewrite Ha in Hfalse. discriminate Hfalse.
  - destruct (settle h (getCommandOutputOrNullIfMissing ["opera"; "--version"]))
      as [b | e]; simpl; [| intros H; discriminate H].
    destruct (truthy b) eqn:Hb.
    + destruct (truthy_inv b Hb) as (output & -> & Hne).
      rewrite (trimmedPieceOrNull_first _ Hne). intros H. injection H as <-.
      split; [discriminate |]. split; [intros H; discriminate H |].
      intros [_ (w & Hw & Hfalse)]. injection Hw as <-.
      rewrite Hb in Hfalse. discriminate Hfalse.
    + unfold trimmedPieceOrNull. rewrite Hb. intros H. injection H as <-.
      split; [discriminate |]. split; [| reflexivity].
      intros _. split; [exists a | exists b]; split; try reflexivity; assumption.
Qed.

Lemma linux_browser_version_null_cases_witness :
  os_platform Sample.bareLinux = "linux" /\
  result Sample.bareLinux (getInstalledBrowserVersion Sample.bareLinux) = Resolved null /\
  null <> undefined.
Proof.
  split; [reflexivity | split; [reflexivity |]].
  exact (proj1 (linux_browser_version_null_cases Sample.bareLinux null eq_refl eq_refl)).
Defined.
